(** * Redwood: transports and phrase scanning

    A shallow embedding of [transport.go] and [phrase_scan.go]:
    the certificate-checking [hardValidationTransport], the hand-written
    [simpleTransport], the [FTPTransport], [responseContent] and
    [scanContent].

    Go values are modelled as follows.
    - [string] is a Go string (a sequence of 8-bit characters);
      a [[]byte] is a [list byte] with [byte := Z] in the range 0..255.
    - [int], [int64] and [rune] are [Z]; the places where the source
      relies on a bound say so.
    - An [error] is [option goerror]: [None] is Go's [nil].
    - Calls that leave the program (certificate verification, the wrapped
      transport, dialing, the FTP library, the gzip reader) are answered by
      oracles and recorded, in order, in a log of [Event]s carried by the
      monad [M]; a nil dereference or an index out of range is a [Panic]. *)

From Stdlib Require Import ZArith String Ascii List Bool Lia.
From stdpp Require Import base option list strings gmap.

Local Open Scope string_scope.
Local Open Scope Z_scope.
Local Open Scope list_scope.

Definition byte := Z.

(** ** Go errors and their dynamic types *)

(** The reasons of [x509.CertificateInvalidError]. *)
Inductive InvalidReason :=
| NotAuthorizedToSign
| Expired
| CANotAuthorizedForThisName
| TooManyIntermediates
| IncompatibleUsage
| NameMismatch.

(** The error values this program meets.  The first five are the error
    types of [crypto/x509]'s [Verify]; [errorString] is what [errors.New]
    builds; [fmtError format args] is what [fmt.Errorf(format, args...)]
    builds, kept unformatted (its text is [Sprintf(format, args...)] and its
    dynamic type the one of [errors.New]'s errors); [otherError] stands for
    any error of another dynamic type (named by [dynType]). *)
Inductive goerror :=
| CertificateInvalidError (Reason : InvalidReason)
| HostnameError (Host : string)
| UnknownAuthorityError
| ConstraintViolationError
| SystemRootsError
| errorString (s : string)
| fmtError (format : string) (args : list string)
| otherError (dynType : string) (msg : string).

Abbreviation error := (option goerror).

(** What [reflect.TypeOf] can return for an [error]. *)
Inductive rtype :=
| T_CertificateInvalidError
| T_HostnameError
| T_UnknownAuthorityError
| T_ConstraintViolationError
| T_SystemRootsError
| T_errorString
| T_other (name : string).

#[global] Instance rtype_eq_dec : EqDecision rtype.
Proof. solve_decision. Defined.

#[global] Instance InvalidReason_eq_dec : EqDecision InvalidReason.
Proof. solve_decision. Defined.

#[global] Instance goerror_eq_dec : EqDecision goerror.
Proof. solve_decision. Defined.

Definition typeOf (e : goerror) : rtype :=
  match e with
  | CertificateInvalidError _ => T_CertificateInvalidError
  | HostnameError _ => T_HostnameError
  | UnknownAuthorityError => T_UnknownAuthorityError
  | ConstraintViolationError => T_ConstraintViolationError
  | SystemRootsError => T_SystemRootsError
  | errorString _ => T_errorString
  | fmtError _ _ => T_errorString
  | otherError n _ => T_other n
  end.

(** [reflect.TypeOf]: the nil interface has the nil type. *)
Definition reflect_TypeOf (a : error) : option rtype := typeOf <$> a.

(** transport.go:116 *)
Definition sameType (a b : error) : bool :=
  bool_decide (reflect_TypeOf a = reflect_TypeOf b).

Definition isNil (e : error) : bool :=
  match e with None => true | Some _ => false end.

Definition errors_New (s : string) : goerror := errorString s.

Definition fmt_Errorf (format : string) (args : list string) : goerror :=
  fmtError format args.

Definition io_EOF : goerror := errors_New "EOF".
Definition io_ErrUnexpectedEOF : goerror := errors_New "unexpected EOF".

(** ** Library data *)

Module x509.

Record Certificate := {
  Raw : list byte;
  RawSubjectPublicKeyInfo : list byte;
  RawSubject : list byte
}.

#[global] Instance Certificate_eq_dec : EqDecision Certificate.
Proof. solve_decision. Defined.

(** A [CertPool] holds each certificate once ([AddCert] skips a certificate
    whose raw encoding is already in the pool). *)
Definition CertPool := list Certificate.

Definition NewCertPool : CertPool := [].

Definition AddCert (p : CertPool) (c : Certificate) : CertPool :=
  if existsb (fun d => bool_decide (Raw d = Raw c)) p then p else p ++ [c].

(** A nil [Roots] means the system's default roots. *)
Record VerifyOptions := {
  DNSName : string;
  Intermediates : option CertPool;
  Roots : option CertPool
}.

End x509.

Module tls.
Record ConnectionState := {
  PeerCertificates : list x509.Certificate
}.
End tls.

Module url.
Record URL := {
  Scheme : string;
  Host : string;
  Path : string
}.
End url.

Module net.
(** A connection as this program sees it: what the peer will send
    ([incoming], then the condition that ends the stream), whether writing
    the request fails, and whether the connection has been closed. *)
Record Conn := {
  incoming : list byte;
  final : goerror;
  writeErr : error;
  closed : bool
}.

Definition Close (c : Conn) : Conn :=
  {| incoming := incoming c; final := final c;
     writeErr := writeErr c; closed := true |}.
End net.

Module io.

(** Readers: a buffered reader over what is left of a connection's stream
    (the bytes still to come and the condition that ends them), and
    [io.LimitedReader]. *)
Inductive Reader :=
| Source (pending : list byte) (final : goerror)
| LimitedReader (R : Reader) (N : Z).

(** [Read r n]: one call of [r.Read(p)] with [len(p) = n]; returns the
    bytes stored in [p], the error, and the reader afterwards.
<<
    func (l *LimitedReader) Read(p []byte) (n int, err error) {
        if l.N <= 0 { return 0, EOF }
        if int64(len(p)) > l.N { p = p[0:l.N] }
        n, err = l.R.Read(p)
        l.N -= int64(n)
        return
    }
>> *)
Fixpoint Read (r : Reader) (n : Z) : list byte * error * Reader :=
  match r with
  | Source pending final =>
      match pending with
      | [] => ([], Some final, r)
      | _ =>
          (take (Z.to_nat n) pending, None,
           Source (drop (Z.to_nat n) pending) final)
      end
  | LimitedReader R N =>
      if N <=? 0 then ([], Some io_EOF, r)
      else
        let n := if n >? N then N else n in
        let '(bs, err, R') := Read R n in
        (bs, err, LimitedReader R' (N - Z.of_nat (length bs)))
  end.

(** [io.ReadAll] (and [ioutil.ReadAll]): read until an error; [EOF] is not
    reported as an error.  [fuel] bounds the number of [Read] calls. *)
Fixpoint ReadAll_loop (fuel : nat) (r : Reader) (acc : list byte)
  : option (list byte * error * Reader) :=
  match fuel with
  | O => None
  | S fuel =>
      let '(bs, err, r') := Read r 512 in
      match err with
      | Some e =>
          Some (acc ++ bs,
                if bool_decide (e = io_EOF) then None else Some e, r')
      | None => ReadAll_loop fuel r' (acc ++ bs)
      end
  end.

(** A bound on the bytes a reader can still deliver. *)
Fixpoint size (r : Reader) : nat :=
  match r with
  | Source pending _ => length pending
  | LimitedReader R _ => size R
  end.

(** A [Read] of 512 bytes that returns no error delivers at least one byte,
    so [size r + 1] calls are enough. *)
Definition ReadAll (r : Reader) : option (list byte * error * Reader) :=
  ReadAll_loop (S (size r)) r [].

End io.

Module http.

(** [map[string][]string]; the nil map and the empty map read alike. *)
Abbreviation Header := (gmap string (list string)).

(** [Header.Get] and [Header.Del] at a key that is already in canonical
    form, as every key this program uses is. *)
Definition Get (h : Header) (key : string) : string :=
  match h !! key with
  | Some (v :: _) => v
  | _ => ""
  end.

Definition Del (h : Header) (key : string) : Header := delete key h.

Record Request := {
  Method : string;
  URL : url.URL;
  Host : string
}.

(** A response body: an [io.Reader] and the connection its [Close]
    closes. *)
Record Body := {
  Reader : io.Reader;
  Closer : net.Conn
}.

Definition Close (b : Body) : Body :=
  {| Reader := Reader b; Closer := net.Close (Closer b) |}.

(** The fields [Header], [Body] and [Request] carry a prime, their names
    being those of their types; a nil [Body], [Request] or [TLS] is
    [None]. *)
Record Response := {
  Status : string;
  StatusCode : Z;
  Proto : string;
  ProtoMajor : Z;
  ProtoMinor : Z;
  Header' : Header;
  Body' : option Body;
  ContentLength : Z;
  Request' : option Request;
  TLS : option tls.ConnectionState
}.

Definition StatusMethodNotAllowed : Z := 405.

End http.

(** ** Effects *)

(** The calls that leave the program. *)
Inductive Event :=
| EvRoundTrip (req : http.Request)
| EvVerify (c : x509.Certificate) (opts : x509.VerifyOptions)
| EvDial (network address : string)
| EvWrite (req : http.Request)
| EvGetAsync (fullPath : string)
| EvGzipNewReader (data : list byte).

Inductive Res (A : Type) :=
| Val (a : A)
| Panic (msg : string).
Arguments Val {A} a.
Arguments Panic {A} msg.

(** A computation: the events it performed, in order, and how it ended. *)
Definition M (A : Type) : Type := list Event * Res A.

Definition ret {A} (a : A) : M A := ([], Val a).

Definition bind {A B} (m : M A) (k : A -> M B) : M B :=
  match m.2 with
  | Val a => (m.1 ++ (k a).1, (k a).2)
  | Panic msg => (m.1, Panic msg)
  end.

Definition panic {A} (msg : string) : M A := ([], Panic msg).

Definition emit (e : Event) : M unit := ([e], Val tt).

Definition events {A} (m : M A) : list Event := fst m.
Definition result {A} (m : M A) : Res A := snd m.

Notation "x <- c1 ;; c2" := (bind c1 (fun x => c2))
  (at level 100, c1 at next level, right associativity).
Notation "c1 ;;; c2" := (bind c1 (fun _ => c2))
  (at level 100, right associativity).

(** [*p] for a pointer or interface that may be nil. *)
Definition deref {A} (p : option A) : M A :=
  match p with
  | Some a => ret a
  | None => panic "invalid memory address or nil pointer dereference"
  end.

(** [s[i]] *)
Definition index {A} (s : list A) (i : nat) : M A :=
  match s !! i with
  | Some a => ret a
  | None => panic "index out of range"
  end.

(** [s[i:]] *)
Definition sliceFrom {A} (s : list A) (i : nat) : M (list A) :=
  if (length s <? i)%nat then panic "slice bounds out of range"
  else ret (drop i s).

(** [bytes.Equal] *)
Definition bytes_Equal (a b : list byte) : bool := bool_decide (a = b).

(** ** transport.go: hardValidationTransport *)

(** An [http.RoundTripper] used as an oracle: what it answers to a request. *)
Definition RoundTripper := http.Request -> option http.Response * error.

(** transport.go:70 *)
Record hardValidationTransport := {
  rt : RoundTripper;
  originalCertificates : list x509.Certificate;
  originalServerName : string;
  originalCertPool : x509.CertPool;
  expectedErrDefault : error;
  expectedErrOriginal : error
}.

(** transport.go:89 *)
Definition errCouldNotVerify : goerror :=
  errors_New "server certificate changed; can't verify the new certificate".

(** [req.URL.Scheme = "https"] *)
Definition setScheme (req : http.Request) (s : string) : http.Request :=
  {| http.Method := http.Method req;
     http.URL := {| url.Scheme := s;
                    url.Host := url.Host (http.URL req);
                    url.Path := url.Path (http.URL req) |};
     http.Host := http.Host req |}.

Definition setBody (res : http.Response) (b : option http.Body)
  : http.Response :=
  {| http.Status := http.Status res;
     http.StatusCode := http.StatusCode res;
     http.Proto := http.Proto res;
     http.ProtoMajor := http.ProtoMajor res;
     http.ProtoMinor := http.ProtoMinor res;
     http.Header' := http.Header' res;
     http.Body' := b;
     http.ContentLength := http.ContentLength res;
     http.Request' := http.Request' res;
     http.TLS := http.TLS res |}.

(** [resp.Body.Close()] on the response [resp] points to. *)
Definition closeBody (resp : http.Response) : M http.Response :=
  b <- deref (http.Body' resp) ;;
  ret (setBody resp (Some (http.Close b))).

(** [resp.Body.Read(p)] with [len(p) = n]: the bytes read and the error. *)
Definition readBody (resp : http.Response) (n : Z) : M (list byte * error) :=
  b <- deref (http.Body' resp) ;;
  let '(bs, err, _) := io.Read (http.Reader b) n in
  ret (bs, err).

(** transport.go:121-123 *)
Definition upgradeScheme (req : http.Request) : http.Request :=
  if bool_decide (url.Scheme (http.URL req) = "http")
  then setScheme req "https" else req.

Section HardValidation.

(** The [Verify] method of [x509.Certificate]: the error it returns (the
    chains are never used). *)
Variable Certificate_Verify :
  x509.Certificate -> x509.VerifyOptions -> error.

Definition Verify (c : x509.Certificate) (opts : x509.VerifyOptions)
  : M error :=
  emit (EvVerify c opts) ;;; ret (Certificate_Verify c opts).

(** transport.go:91 *)
Definition newHardValidationTransport (rt : RoundTripper)
    (serverName : string) (certificates : list x509.Certificate)
  : M hardValidationTransport :=
  let pool := fold_left x509.AddCert certificates x509.NewCertPool in
  c0 <- index certificates 0 ;;
  errDefault <- Verify c0 {| x509.Intermediates := Some pool;
                             x509.DNSName := serverName;
                             x509.Roots := None |} ;;
  c0 <- index certificates 0 ;;
  errOriginal <- Verify c0 {| x509.Roots := Some pool;
                              x509.DNSName := serverName;
                              x509.Intermediates := None |} ;;
  ret {| rt := rt;
         originalCertificates := certificates;
         originalServerName := serverName;
         originalCertPool := pool;
         expectedErrDefault := errDefault;
         expectedErrOriginal := errOriginal |}.

(** The condition of lines 145, 154, 163 and 172:
    [err == nil || sameType(err, expected)]. *)
Definition passes (err expected : error) : bool :=
  isNil err || sameType err expected.

(** transport.go:120.  The request given to the wrapped transport is the
    caller's request with its scheme changed in place. *)
Definition RoundTrip (t : hardValidationTransport) (req : http.Request)
  : M (option http.Response * error) :=
  let req := upgradeScheme req in
  emit (EvRoundTrip req) ;;;
  let '(resp, err) := rt t req in
  if negb (isNil err) then ret (resp, err) else
  r <- deref resp ;;
  cs <- deref (http.TLS r) ;;
  leaf <- index (tls.PeerCertificates cs) 0 ;;
  orig <- index (originalCertificates t) 0 ;;
  if bytes_Equal (x509.RawSubjectPublicKeyInfo leaf)
                 (x509.RawSubjectPublicKeyInfo orig)
  then ret (resp, None) else
  let serverCert := leaf in
  rest <- sliceFrom (tls.PeerCertificates cs) 1 ;;
  let intermediates := fold_left x509.AddCert rest x509.NewCertPool in
  err <- Verify serverCert {| x509.Intermediates := Some intermediates;
                              x509.DNSName := http.Host req;
                              x509.Roots := None |} ;;
  if passes err (expectedErrDefault t) then ret (resp, None) else
  err <- Verify serverCert {| x509.Intermediates := Some intermediates;
                              x509.DNSName := http.Host req;
                              x509.Roots := Some (originalCertPool t) |} ;;
  if passes err (expectedErrOriginal t) then ret (resp, None) else
  let reject :=
    r' <- closeBody r ;;
    ret (Some r', Some errCouldNotVerify) in
  if negb (bool_decide (http.Host req = originalServerName t)) then
    err <- Verify serverCert
             {| x509.Intermediates := Some intermediates;
                x509.DNSName := originalServerName t;
                x509.Roots := None |} ;;
    if passes err (expectedErrDefault t) then ret (resp, None) else
    err <- Verify serverCert
             {| x509.Intermediates := Some intermediates;
                x509.DNSName := originalServerName t;
                x509.Roots := Some (originalCertPool t) |} ;;
    if passes err (expectedErrOriginal t) then ret (resp, None) else
    reject
  else reject.

End HardValidation.

(** ** Strings and numbers of the Go library *)

Definition byte_of_ascii (a : ascii) : byte := Z.of_N (N_of_ascii a).
Definition ascii_of_byte (b : byte) : ascii := ascii_of_N (Z.to_N b).

(** [[]byte(s)] and [string(b)] *)
Definition bytes_of_string (s : string) : list byte :=
  byte_of_ascii <$> list_ascii_of_string s.
Definition string_of_bytes (b : list byte) : string :=
  string_of_list_ascii (ascii_of_byte <$> b).

(** [len(s)] *)
Definition len (s : string) : Z := Z.of_nat (String.length s).

(** [strings.IndexByte]: the index of the first [c] in [s], or -1. *)
Fixpoint strings_IndexByte (s : string) (c : ascii) : Z :=
  match s with
  | EmptyString => -1
  | String a s' =>
      if Ascii.eqb a c then 0
      else let i := strings_IndexByte s' c in
           if i =? -1 then -1 else i + 1
  end.

Fixpoint str_take (n : nat) (s : string) : string :=
  match n, s with
  | S n, String a s' => String a (str_take n s')
  | _, _ => EmptyString
  end.

Fixpoint str_drop (n : nat) (s : string) : string :=
  match n, s with
  | S n, String _ s' => str_drop n s'
  | _, _ => s
  end.

(** [s[:i]] and [s[i:]] for [0 <= i <= len(s)], the only way the source
    uses them. *)
Definition sliceTo (s : string) (i : Z) : string := str_take (Z.to_nat i) s.
Definition sliceOff (s : string) (i : Z) : string := str_drop (Z.to_nat i) s.

(** [strings.TrimLeft(s, " ")] *)
Fixpoint strings_TrimLeft_space (s : string) : string :=
  match s with
  | String a s' => if Ascii.eqb a " " then strings_TrimLeft_space s' else s
  | EmptyString => EmptyString
  end.

(** [strings.HasPrefix] and [strings.Contains] *)
Fixpoint strings_HasPrefix (s prefix : string) : bool :=
  match prefix, s with
  | EmptyString, _ => true
  | String p prefix', String a s' => Ascii.eqb a p && strings_HasPrefix s' prefix'
  | String _ _, EmptyString => false
  end.

Fixpoint strings_Contains (s substr : string) : bool :=
  strings_HasPrefix s substr ||
  match s with
  | EmptyString => false
  | String _ s' => strings_Contains s' substr
  end.

(** The value of a decimal digit. *)
Definition digitVal (c : ascii) : option Z :=
  let n := byte_of_ascii c in
  if (48 <=? n) && (n <=? 57) then Some (n - 48) else None.

Fixpoint parseDigits (s : string) (acc : Z) : option Z :=
  match s with
  | EmptyString => Some acc
  | String c s' =>
      match digitVal c with
      | Some d => parseDigits s' (acc * 10 + d)
      | None => None
      end
  end.

Definition NumError (func input reason : string) : goerror :=
  otherError "*strconv.NumError" (func +:+ ": " +:+ input +:+ ": " +:+ reason).

(** [strconv.ParseInt(s, 10, bitSize)]: an optional sign, then one or more
    decimal digits (no underscores in base 10); a value outside the
    [bitSize]-bit signed range is a range error. *)
Definition parseInt10 (func : string) (s : string) (bitSize : Z)
  : Z + goerror :=
  match s with
  | EmptyString => inr (NumError func s "invalid syntax")
  | String c rest =>
      let neg := Ascii.eqb c "-" in
      let digits := if Ascii.eqb c "+" || neg then rest else s in
      match digits with
      | EmptyString => inr (NumError func s "invalid syntax")
      | _ =>
          match parseDigits digits 0 with
          | None => inr (NumError func s "invalid syntax")
          | Some un =>
              let cutoff := 2 ^ (bitSize - 1) in
              if negb neg && (cutoff <=? un)
              then inr (NumError func s "value out of range")
              else if neg && (cutoff <? un)
              then inr (NumError func s "value out of range")
              else inl (if neg then - un else un)
          end
      end
  end.

Definition strconv_ParseInt (s : string) (bitSize : Z) : Z + goerror :=
  parseInt10 "ParseInt" s bitSize.

(** [strconv.Atoi], with a 64-bit [int]. *)
Definition strconv_Atoi (s : string) : Z + goerror :=
  parseInt10 "Atoi" s 64.

(** [textproto.Reader.ReadLine] on a buffered reader whose remaining input
    is [pending] followed by [final]: the line up to the first newline,
    without its ["\n"] or ["\r\n"]; input that ends without a newline is
    returned as a last line; no input at all is the error [final]. *)
Fixpoint splitLine (pending : list byte) : list byte * list byte :=
  match pending with
  | [] => ([], [])
  | b :: rest =>
      if b =? 10 then ([], rest)
      else if (b =? 13) && bool_decide (head rest = Some 10)
      then ([], tail rest)
      else let '(l, r) := splitLine rest in (b :: l, r)
  end.

Definition ReadLine (pending : list byte) (final : goerror)
  : string * error * list byte :=
  match pending with
  | [] => ("", Some final, [])
  | _ => let '(l, r) := splitLine pending in (string_of_bytes l, None, r)
  end.

(** ** transport.go: simpleTransport *)

(** The library functions [simpleTransport] calls whose behaviour is left
    open: the [net] helpers, the dialer (the network's answer to a dial),
    [textproto.Reader.ReadMIMEHeader] (from the input that is left, the
    header block, an error, and the input after it),
    [http.ParseHTTPVersion], and the texts of [err.Error()] and
    [req.URL.String()] that go into error messages. *)
Record NetLib := {
  net_SplitHostPort : string -> string * string * error;
  net_JoinHostPort : string -> string -> string;
  dialer_Dial : string -> string -> net.Conn + goerror;
  ReadMIMEHeader : list byte -> goerror -> http.Header * error * list byte;
  http_ParseHTTPVersion : string -> Z * Z * bool;
  Error : goerror -> string;
  URL_String : url.URL -> string
}.

(** transport.go:220-236, the first line of the response: the protocol, the
    status text and the status code, or the error returned. *)
Definition parseFirstLine (line : string) : string * string * Z + goerror :=
  let i := strings_IndexByte line " " in
  if i =? -1 then inr (fmt_Errorf "malformed HTTP response: %q" [line]) else
  let Proto := sliceTo line i in
  let Status := strings_TrimLeft_space (sliceOff line (i + 1)) in
  let statusCode := Status in
  let i := strings_IndexByte Status " " in
  let statusCode := if negb (i =? -1) then sliceTo Status i else statusCode in
  if negb (len statusCode =? 3)
  then inr (fmt_Errorf "malformed HTTP status code: %q" [statusCode]) else
  match strconv_Atoi statusCode with
  | inr _ => inr (fmt_Errorf "malformed HTTP status code: %q" [statusCode])
  | inl StatusCode =>
      if StatusCode <? 0
      then inr (fmt_Errorf "malformed HTTP status code: %q" [statusCode])
      else inl (Proto, Status, StatusCode)
  end.

(** [if err == io.EOF { err = io.ErrUnexpectedEOF }] *)
Definition unexpectedEOF (err : goerror) : goerror :=
  if bool_decide (err = io_EOF) then io_ErrUnexpectedEOF else err.

(** What lines 186-250 have established when the header block has been
    read: the connection, the fields of the first line, the header block,
    and the input that follows it in the buffered reader. *)
Record Head := {
  hConn : net.Conn;
  hProto : string;
  hStatus : string;
  hStatusCode : Z;
  hProtoMajor : Z;
  hProtoMinor : Z;
  hHeader : http.Header;
  hRest : list byte
}.

(** transport.go:193-196: the address dialed. *)
Definition dialAddress (L : NetLib) (req : http.Request) : string :=
  let host := url.Host (http.URL req) in
  if negb (isNil (net_SplitHostPort L host).2)
  then net_JoinHostPort L host "80" else host.

(** transport.go:186-250: up to the header block; [inr err] is the error
    the round trip returns (with a nil response). *)
Definition readHead (L : NetLib) (req : http.Request) : M (Head + goerror) :=
  if negb (bool_decide (http.Method req = "GET")) then
    ret (inr (fmt_Errorf
      "request method not supported by simpleTransport (expected GET, got %s)"
      [http.Method req]))
  else
  if negb (bool_decide (url.Scheme (http.URL req) = "http")) then
    ret (inr (fmt_Errorf
      "URL scheme not supported by simpleTransport (expected http, got %s)"
      [url.Scheme (http.URL req)]))
  else
  let host := dialAddress L req in
  emit (EvDial "tcp" host) ;;;
  match dialer_Dial L "tcp" host with
  | inr err =>
      ret (inr (fmt_Errorf "error connecting to %s: %v" [host; Error L err]))
  | inl conn =>
  emit (EvWrite req) ;;;
  match net.writeErr conn with
  | Some err =>
      ret (inr (fmt_Errorf "error sending request for %v: %v"
                  [URL_String L (http.URL req); Error L err]))
  | None =>
  (* Parse the first line of the response. *)
  let '(line, err, br) := ReadLine (net.incoming conn) (net.final conn) in
  match err with
  | Some err => ret (inr (unexpectedEOF err))
  | None =>
  match parseFirstLine line with
  | inr err => ret (inr err)
  | inl (Proto, Status, StatusCode) =>
  let '(ProtoMajor, ProtoMinor, ok) := http_ParseHTTPVersion L Proto in
  if negb ok
  then ret (inr (fmt_Errorf "malformed HTTP version: %q" [Proto]))
  else
  (* Parse the response headers. *)
  let '(mimeHeader, err, br) := ReadMIMEHeader L br (net.final conn) in
  match err with
  | Some err => ret (inr (unexpectedEOF err))
  | None =>
      ret (inl {| hConn := conn; hProto := Proto; hStatus := Status;
                  hStatusCode := StatusCode; hProtoMajor := ProtoMajor;
                  hProtoMinor := ProtoMinor; hHeader := mimeHeader;
                  hRest := br |})
  end end end end end.

(** transport.go:252-269: the content length and the body. *)
Definition finish (req : http.Request) (h : Head)
  : option http.Response * error :=
  let Header := hHeader h in
  let cl := http.Get Header "Content-Length" in
  let parsed :=
    if negb (bool_decide (cl = ""))
    then strconv_ParseInt cl 64
    else inl 0 (* resp.ContentLength keeps its zero value *) in
  match parsed with
  | inr _ => (None, Some (fmt_Errorf "invalid Content-Length: %q" [cl]))
  | inl ContentLength =>
  let Header := http.Del Header "Content-Length" in
  let Header := http.Del Header "Trailer" in
  let body :=
    {| http.Reader :=
         io.LimitedReader (io.Source (hRest h) (net.final (hConn h)))
           ContentLength;
       http.Closer := hConn h |} in
  (Some {| http.Status := hStatus h;
           http.StatusCode := hStatusCode h;
           http.Proto := hProto h;
           http.ProtoMajor := hProtoMajor h;
           http.ProtoMinor := hProtoMinor h;
           http.Header' := Header;
           http.Body' := Some body;
           http.ContentLength := ContentLength;
           http.Request' := Some req;
           http.TLS := None |}, None)
  end.

(** transport.go:185 *)
Definition simpleTransport_RoundTrip (L : NetLib) (req : http.Request)
  : M (option http.Response * error) :=
  h <- readHead L req ;;
  match h with
  | inr err => ret (None, Some err)
  | inl h => ret (finish req h)
  end.

(** ** transport.go: FTPTransport *)

(** [path.Ext]: the suffix of [p] beginning at the last dot of its last
    slash-separated element, or the empty string. *)
Fixpoint path_Ext (p : string) : string :=
  match p with
  | EmptyString => EmptyString
  | String a p' =>
      let e := path_Ext p' in
      if negb (bool_decide (e = "")) then e
      else if (strings_IndexByte p' "/" =? -1) && Ascii.eqb a "." then p
      else EmptyString
  end.

(** What [FTPTransport] takes from outside: [ftp.GetAsync], answered with
    the read end of the pipe as its reader will observe it once the
    goroutine of lines 290-303 has closed the write end (the bytes the
    transfer wrote, then end of stream after [COMPLETED] or the transfer's
    error after [ERROR]), or with an error; and [mime.TypeByExtension]. *)
Record FTPLib := {
  ftp_GetAsync : string -> http.Body + goerror;
  mime_TypeByExtension : string -> string
}.

(** [Header.Set] at a canonical key. *)
Definition Header_Set (h : http.Header) (key value : string) : http.Header :=
  <[key := [value]]> h.

(** transport.go:275 *)
Definition FTPTransport_RoundTrip (L : FTPLib) (req : http.Request)
  : M (option http.Response * error) :=
  if negb (bool_decide (http.Method req = "GET")) then
    ret (Some {| http.Status := "";
                 http.StatusCode := http.StatusMethodNotAllowed;
                 http.Proto := "";
                 http.ProtoMajor := 0;
                 http.ProtoMinor := 0;
                 http.Header' := ∅;
                 http.Body' := None;
                 http.ContentLength := 0;
                 http.Request' := Some req;
                 http.TLS := None |}, None)
  else
  let fullPath := url.Host (http.URL req) +:+ url.Path (http.URL req) in
  emit (EvGetAsync fullPath) ;;;
  match ftp_GetAsync L fullPath with
  | inr err => ret (None, Some err)
  | inl r =>
      let Header : http.Header := ∅ in
      let ext := path_Ext (url.Path (http.URL req)) in
      let Header :=
        if negb (bool_decide (ext = "")) then
          let ct := mime_TypeByExtension L ext in
          if negb (bool_decide (ct = ""))
          then Header_Set Header "Content-Type" ct else Header
        else Header in
      ret (Some {| http.Status := "";
                   http.StatusCode := 200;
                   http.Proto := "";
                   http.ProtoMajor := 1;
                   http.ProtoMinor := 1;
                   http.Header' := Header;
                   http.Body' := Some r;
                   http.ContentLength := 0;
                   http.Request' := Some req;
                   http.TLS := None |}, None)
  end.

(** ** phrase_scan.go: responseContent *)

Definition setHeader (res : http.Response) (h : http.Header)
  : http.Response :=
  {| http.Status := http.Status res;
     http.StatusCode := http.StatusCode res;
     http.Proto := http.Proto res;
     http.ProtoMajor := http.ProtoMajor res;
     http.ProtoMinor := http.ProtoMinor res;
     http.Header' := h;
     http.Body' := http.Body' res;
     http.ContentLength := http.ContentLength res;
     http.Request' := http.Request' res;
     http.TLS := http.TLS res |}.

(** How a call of [responseContent] ends: the events, the slice returned
    (or the panic), and the response [res] points to afterwards. *)
Record Outcome := {
  oEvents : list Event;
  oResult : Res (list byte);
  oRes : http.Response
}.

(** phrase_scan.go:79.  [gzip_NewReader] is [gzip.NewReader] on a buffer
    holding [data]: the reader of the decompressed stream, or an error.
    The deferred [r.Close()] closes the body however the function leaves;
    [rd] is the body's reader after what has been read from it. *)
Definition responseContent
    (gzip_NewReader : list byte -> io.Reader + goerror)
    (res : http.Response) : Outcome :=
  match http.Body' res with
  | None =>
      {| oEvents := [];
         oResult := Panic "invalid memory address or nil pointer dereference";
         oRes := res |}
  | Some r =>
      let closed (rd : io.Reader) (res : http.Response) :=
        setBody res (Some (http.Close {| http.Reader := rd;
                                         http.Closer := http.Closer r |})) in
      if bool_decide (http.Get (http.Header' res) "Content-Encoding" = "gzip")
      then
        match io.ReadAll (http.Reader r) with
        | None =>
            {| oEvents := []; oResult := Panic "unreachable"; oRes := res |}
        | Some (gzContent, Some err, rd) =>
            {| oEvents := [];
               oResult := Panic "error reading gzipped content";
               oRes := closed rd res |}
        | Some (gzContent, None, rd) =>
            if (length gzContent =? 0)%nat then
              (* If the compressed content is empty, decompress it to empty
                 content. *)
              {| oEvents := []; oResult := Val []; oRes := closed rd res |}
            else
              match gzip_NewReader gzContent with
              | inr err =>
                  {| oEvents := [EvGzipNewReader gzContent];
                     oResult := Panic "could not create gzip decoder";
                     oRes := closed rd res |}
              | inl gz =>
                  let res :=
                    setHeader res
                      (http.Del (http.Header' res) "Content-Encoding") in
                  match io.ReadAll gz with
                  | None =>
                      {| oEvents := [EvGzipNewReader gzContent];
                         oResult := Panic "unreachable";
                         oRes := closed rd res |}
                  | Some (content, _, _) =>
                      (* Deliberately ignore the error. *)
                      {| oEvents := [EvGzipNewReader gzContent];
                         oResult := Val content;
                         oRes := closed rd res |}
                  end
              end
        end
      else
        match io.ReadAll (http.Reader r) with
        | None =>
            {| oEvents := []; oResult := Panic "unreachable"; oRes := res |}
        | Some (content, _, rd) =>
            {| oEvents := []; oResult := Val content; oRes := closed rd res |}
        end
  end.

(** ** phrase_scan.go: scanContent *)

Module mahonia.
Inductive Status := SUCCESS | INVALID_CHAR | NO_ROOM | STATE_ONLY.

(** A [Decoder] is a function [func(p []byte) (c rune, size int, status
    Status)] that may keep state between calls: here a state and a step
    function. *)
Record Decoder := {
  DState : Type;
  start : DState;
  step : DState -> list byte -> Z * Z * Status * DState
}.
End mahonia.

(** [utf8.EncodeRune]: the UTF-8 encoding of [r]; a rune out of range or a
    surrogate is encoded as [U+FFFD]. *)
Definition utf8_EncodeRune (r : Z) : list byte :=
  let i := r mod 2 ^ 32 in
  if i <=? 127 then [i]
  else if i <=? 2047 then
    [Z.lor 192 (Z.shiftr i 6); Z.lor 128 (Z.land i 63)]
  else
    let r := if (1114111 <? i) || ((55296 <=? i) && (i <=? 57343))
             then 65533 else i in
    if r <=? 65535 then
      [Z.lor 224 (Z.shiftr r 12);
       Z.lor 128 (Z.land (Z.shiftr r 6) 63);
       Z.lor 128 (Z.land r 63)]
    else
      [Z.lor 240 (Z.shiftr r 18);
       Z.lor 128 (Z.land (Z.shiftr r 12) 63);
       Z.lor 128 (Z.land (Z.shiftr r 6) 63);
       Z.lor 128 (Z.land r 63)].

(** [byte(c)] for a rune [c] *)
Definition byte_of_rune (c : Z) : byte := c mod 256.

Definition space : Z := 32.

Section ScanLoop.

(** The phrase scanner (declared outside these files): its state and
    [scanByte]. *)
Context {phraseScanner : Type}.
Variable scanByte : phraseScanner -> byte -> phraseScanner.

(** [wordRune] is declared outside these files. *)
Variable wordRune : Z -> Z.

Variable decode : mahonia.Decoder.

(** phrase_scan.go:39-67, the loop.  [fuel] bounds the number of
    iterations; [None] means the bound was reached before the loop
    ended. *)
Fixpoint scanLoop (fuel : nat) (ds : mahonia.DState decode)
    (content : list byte) (prevRune : Z) (ps : phraseScanner)
  : option (Res phraseScanner) :=
  match content with
  | [] => Some (Val ps)
  | _ =>
    match fuel with
    | O => None
    | S fuel =>
      (* Read one Unicode character from content. *)
      let '(c, size, status, ds) := mahonia.step decode ds content in
      if (size <? 0) || (Z.of_nat (length content) <? size)
      then Some (Panic "slice bounds out of range") else
      let content := drop (Z.to_nat size) content in
      match status with
      | mahonia.STATE_ONLY => scanLoop fuel ds content prevRune ps
      | mahonia.NO_ROOM => Some (Val ps)
      | _ =>
        (* Simplify it to lower-case words separated by single spaces. *)
        let c := wordRune c in
        if (c =? space) && (prevRune =? space)
        then scanLoop fuel ds content prevRune ps else
        let prevRune := c in
        (* Convert it to UTF-8 and scan the bytes. *)
        if c <? 128
        then scanLoop fuel ds content prevRune (scanByte ps (byte_of_rune c))
        else
          scanLoop fuel ds content prevRune
            (fold_left scanByte (utf8_EncodeRune c) ps)
      end
    end
  end.

(** phrase_scan.go:34-69: what [scanContent] feeds to a new phrase
    scanner [ps] for the document [content]. *)
Definition scanBytes (fuel : nat) (ps : phraseScanner)
    (content : list byte) : option (Res phraseScanner) :=
  let ps := scanByte ps space in
  let prevRune := space in
  match scanLoop fuel (mahonia.start decode) content prevRune ps with
  | Some (Val ps) => Some (Val (scanByte ps space))
  | other => other
  end.

End ScanLoop.

(** The per-document state [scanContent] works on. *)
Record context := {
  charset : string;
  content : list byte;
  tally : gmap string Z
}.

Definition setCharset (c : context) (cs : string) : context :=
  {| charset := cs; content := content c; tally := tally c |}.

Definition setTally (c : context) (t : gmap string Z) : context :=
  {| charset := charset c; content := content c; tally := t |}.

(** What [scanContent] uses from outside these files: the charset found by
    [c.findCharset()], [c.contentType()], the [mahonia] decoders, the phrase
    scanner with its tally, [wordRune], and [c.calculateScores()]. *)
Record ScanLib := {
  phraseScanner : Type;
  newPhraseScanner : phraseScanner;
  scanByte : phraseScanner -> byte -> phraseScanner;
  ps_tally : phraseScanner -> gmap string Z;
  wordRune : Z -> Z;
  findCharset : context -> string;
  contentType : context -> string;
  mahonia_NewDecoder : string -> option mahonia.Decoder;
  mahonia_EntityDecoder : mahonia.Decoder;
  mahonia_FallbackDecoder :
    mahonia.Decoder -> option mahonia.Decoder -> mahonia.Decoder;
  calculateScores : context -> context
}.

(** [for rule, n := range ps.tally { c.tally[rule] += n }] *)
Definition mergeTally (into from : gmap string Z) : gmap string Z :=
  union_with (fun a n => Some (a + n)) into from.

(** phrase_scan.go:19.  Calling a nil decoder panics; that happens only when
    there is content to decode. *)
Definition scanContent (L : ScanLib) (fuel : nat) (c : context)
  : option (Res context) :=
  let c := if bool_decide (charset c = "")
           then setCharset c (findCharset L c) else c in
  let decode := mahonia_NewDecoder L (charset c) in
  let decode := match decode with
                | None => mahonia_NewDecoder L "utf-8"
                | Some d => Some d
                end in
  let decode := if strings_Contains (contentType L c) "html"
                then Some (mahonia_FallbackDecoder L
                             (mahonia_EntityDecoder L) decode)
                else decode in
  let scanned :=
    match decode with
    | Some d =>
        scanBytes (scanByte L) (wordRune L) d fuel (newPhraseScanner L)
          (content c)
    | None =>
        match content c with
        | [] => Some (Val (scanByte L (scanByte L (newPhraseScanner L) space)
                              space))
        | _ => Some (Panic "invalid memory address or nil pointer dereference")
        end
    end in
  match scanned with
  | Some (Val ps) =>
      Some (Val (calculateScores L
                   (setTally c (mergeTally (tally c) (ps_tally L ps)))))
  | Some (Panic msg) => Some (Panic msg)
  | None => None
  end.

(** A phrase scanner that only records the bytes it is given. *)
Definition record (fed : list byte) (b : byte) : list byte := fed ++ [b].

(** The byte sequence [scanContent] gives to the phrase scanner for a
    document, with decoder [d]. *)
Definition fedBytes (wordRune : Z -> Z) (d : mahonia.Decoder)
    (fuel : nat) (content : list byte) : option (Res (list byte)) :=
  scanBytes record wordRune d fuel [] content.

(** ** Instances used in examples *)

(** Modelled from the spec: [wordRune], which is declared outside these
    files.  The spec has each character "canonicalized to a reduced
    alphabet": "case-folded letters or a single separator standing in for
    any run of whitespace/punctuation".  On ASCII: letters in lower case,
    digits unchanged, everything else the separator; other characters are
    left as they are. *)
Definition wordRune_ascii (c : Z) : Z :=
  if (65 <=? c) && (c <=? 90) then c + 32
  else if (97 <=? c) && (c <=? 122) then c
  else if (48 <=? c) && (c <=? 57) then c
  else if c <? 128 then space
  else c.

(** The decoder of the charset US-ASCII: one byte is one character, a byte
    above 127 is an invalid character. *)
Definition decodeASCII : mahonia.Decoder :=
  {| mahonia.DState := unit;
     mahonia.start := tt;
     mahonia.step := fun _ p =>
       match p with
       | [] => (0, 0, mahonia.NO_ROOM, tt)
       | b :: _ =>
           if 127 <? b then (65533, 1, mahonia.INVALID_CHAR, tt)
           else (b, 1, mahonia.SUCCESS, tt)
       end |}.

(** A decoder makes progress when every call on non-empty input that does
    not answer [NO_ROOM] consumes at least one byte and no more than
    there is. *)
Definition progresses (d : mahonia.Decoder) : Prop :=
  forall ds p, p <> [] ->
    let '(_, size, status, _) := mahonia.step d ds p in
    0 <= size <= Z.of_nat (length p) /\
    (status <> mahonia.NO_ROOM -> 1 <= size).

(** A simple [ReadMIMEHeader], enough for header blocks whose keys are
    already canonical and that have no continuation lines: lines
    [key: value] up to an empty line; the values of a key are kept in
    order, without the blanks before them. *)
Fixpoint trimBlanks (s : string) : string :=
  match s with
  | String a s' =>
      if Ascii.eqb a " " || Ascii.eqb a "009" then trimBlanks s' else s
  | EmptyString => EmptyString
  end.

Fixpoint readHeaderLines (fuel : nat) (pending : list byte)
    (final : goerror) (h : http.Header) : http.Header * error * list byte :=
  match fuel with
  | O => (h, Some (otherError "textproto.ProtocolError" "header too long"),
          pending)
  | S fuel =>
      let '(line, err, rest) := ReadLine pending final in
      match err with
      | Some e => (h, Some e, rest)
      | None =>
          if bool_decide (line = "") then (h, None, rest) else
          let i := strings_IndexByte line ":" in
          if i =? -1
          then (h, Some (otherError "textproto.ProtocolError"
                           ("malformed MIME header line: " +:+ line)), rest)
          else
            let key := sliceTo line i in
            let value := trimBlanks (sliceOff line (i + 1)) in
            readHeaderLines fuel rest final
              (<[key := default [] (h !! key) ++ [value]]> h)
      end
  end.

(** A library for examples: every dial reaches [conn]; a host has a port
    when it contains a colon; the protocol versions known are 1.0 and
    1.1. *)
Definition exampleLib (conn : net.Conn) : NetLib :=
  {| net_SplitHostPort := fun hostport =>
       if strings_IndexByte hostport ":" =? -1
       then ("", "", Some (otherError "*net.AddrError"
                             "missing port in address"))
       else ("", "", None);
     net_JoinHostPort := fun host port => host +:+ ":" +:+ port;
     dialer_Dial := fun _ _ => inl conn;
     ReadMIMEHeader := fun pending final =>
       readHeaderLines (S (length pending)) pending final ∅;
     http_ParseHTTPVersion := fun vers =>
       if bool_decide (vers = "HTTP/1.1") then (1, 1, true)
       else if bool_decide (vers = "HTTP/1.0") then (1, 0, true)
       else (0, 0, false);
     Error := fun _ => "error";
     URL_String := fun u => url.Scheme u +:+ "://" +:+ url.Host u
                            +:+ url.Path u |}.

Definition CRLF : string := String "013" (String "010" EmptyString).

(** A connection on which the peer sends [data] and then ends the
    stream. *)
Definition sends (data : string) : net.Conn :=
  {| net.incoming := bytes_of_string data;
     net.final := io_EOF;
     net.writeErr := None;
     net.closed := false |}.

Definition getRequest (scheme host path : string) : http.Request :=
  {| http.Method := "GET";
     http.URL := {| url.Scheme := scheme; url.Host := host;
                    url.Path := path |};
     http.Host := host |}.

(** ** The spec's notions *)

(** In the spec's words: two outcomes are "equivalent" iff both are
    [Success], or both are [Failure] with the same category.  The category
    of a failure is what the source compares: the dynamic type of the
    error. *)
Definition equivalent (a b : error) : Prop :=
  match a, b with
  | None, None => True
  | Some x, Some y => typeOf x = typeOf y
  | _, _ => False
  end.

(** The status text of a first line whose first space is at index [i], and
    the first space-delimited token of a text. *)
Definition statusText (line : string) (i : Z) : string :=
  strings_TrimLeft_space (sliceOff line (i + 1)).

Fixpoint firstToken (s : string) : string :=
  match s with
  | EmptyString => EmptyString
  | String a s' => if Ascii.eqb a " " then EmptyString
                   else String a (firstToken s')
  end.

(** A token parses as a non-negative base-10 integer. *)
Definition parsesNonNegative (tok : string) : Prop :=
  exists n, strconv_Atoi tok = inl n /\ 0 <= n.

Definition malformedStatusCode (tok : string) : goerror :=
  fmt_Errorf "malformed HTTP status code: %q" [tok].

(** The options of the verification of lines 141-144: default roots, the
    pool of all but the first of the new chain, the request's host. *)
Definition defaultCheckOptions (chain : list x509.Certificate)
    (req : http.Request) : x509.VerifyOptions :=
  {| x509.Intermediates :=
       Some (fold_left x509.AddCert (drop 1 chain) x509.NewCertPool);
     x509.DNSName := http.Host req;
     x509.Roots := None |}.

(** [RoundTrip] accepts [resp] at the check of lines 141-147: it returns it
    without error having made that one verification and no other. *)
Definition acceptsAtDefaultCheck
    (Certificate_Verify : x509.Certificate -> x509.VerifyOptions -> error)
    (t : hardValidationTransport) (req : http.Request)
    (resp : http.Response) (leaf : x509.Certificate)
    (chain : list x509.Certificate) : Prop :=
  RoundTrip Certificate_Verify t req =
    ([EvRoundTrip (upgradeScheme req);
      EvVerify leaf (defaultCheckOptions chain req)],
     Val (Some resp, None)).

(** The test the source makes after a verification of [leaf] for the name
    [host] against [roots] ([None]: the default roots), with the rest of the
    new chain as intermediates: the verification succeeds, or it fails with
    an error of the same dynamic type as [expected]. *)
Definition checkPasses
    (Certificate_Verify : x509.Certificate -> x509.VerifyOptions -> error)
    (leaf : x509.Certificate) (rest : list x509.Certificate)
    (host : string) (roots : option x509.CertPool) (expected : error)
  : bool :=
  passes
    (Certificate_Verify leaf
       {| x509.DNSName := host;
          x509.Intermediates :=
            Some (fold_left x509.AddCert rest x509.NewCertPool);
          x509.Roots := roots |})
    expected.

(** ** Certificates and answers for examples *)

Definition cert (id key : Z) : x509.Certificate :=
  {| x509.Raw := [id];
     x509.RawSubjectPublicKeyInfo := [key];
     x509.RawSubject := [0] |}.

Definition originalCert : x509.Certificate := cert 1 10.
Definition renewedCert : x509.Certificate := cert 2 10.
Definition otherCert : x509.Certificate := cert 3 30.

(** A response received over TLS with the chain [chain]. *)
Definition tlsResponse (chain : list x509.Certificate) : http.Response :=
  {| http.Status := "200 OK";
     http.StatusCode := 200;
     http.Proto := "HTTP/1.1";
     http.ProtoMajor := 1;
     http.ProtoMinor := 1;
     http.Header' := ∅;
     http.Body' := Some {| http.Reader := io.Source [] io_EOF;
                           http.Closer := sends "" |};
     http.ContentLength := 0;
     http.Request' := None;
     http.TLS := Some {| tls.PeerCertificates := chain |} |}.

(** A wrapped transport that answers every request with [resp]. *)
Definition answers (resp : http.Response) : RoundTripper :=
  fun _ => (Some resp, None).

(** The original certificate is self-signed (unknown to the default roots,
    valid against itself); every other certificate verifies. *)
Definition selfSignedOriginal (c : x509.Certificate)
    (opts : x509.VerifyOptions) : error :=
  if bool_decide (c = originalCert) then
    match x509.Roots opts with
    | None => Some UnknownAuthorityError
    | Some _ => None
    end
  else None.

(** The original certificate verifies; no other certificate does. *)
Definition onlyOriginalVerifies (c : x509.Certificate)
    (opts : x509.VerifyOptions) : error :=
  if bool_decide (c = originalCert) then None
  else Some UnknownAuthorityError.

(** The transport built for ["example.com"] from the chain
    [[originalCert]], over a transport that answers with [resp]. *)
Definition pinned
    (Certificate_Verify : x509.Certificate -> x509.VerifyOptions -> error)
    (resp : http.Response) : hardValidationTransport :=
  {| rt := answers resp;
     originalCertificates := [originalCert];
     originalServerName := "example.com";
     originalCertPool := [originalCert];
     expectedErrDefault :=
       Certificate_Verify originalCert
         {| x509.DNSName := "example.com";
            x509.Intermediates := Some [originalCert];
            x509.Roots := None |};
     expectedErrOriginal :=
       Certificate_Verify originalCert
         {| x509.DNSName := "example.com";
            x509.Intermediates := None;
            x509.Roots := Some [originalCert] |} |}.

(** The gzip encoding of ["hello"]. *)
Definition helloGz : list byte :=
  [31; 139; 8; 0; 0; 0; 0; 0; 2; 3; 203; 72; 205; 201; 201; 7; 0;
   134; 166; 16; 54; 5; 0; 0; 0].

(** A [gzip.NewReader] that knows one payload and refuses everything
    else. *)
Definition gunzipOnly (payload original : list byte)
  : list byte -> io.Reader + goerror :=
  fun data =>
    if bool_decide (data = payload) then inl (io.Source original io_EOF)
    else inr (errorString "gzip: invalid header").

(** A [gzip.NewReader] that refuses everything, as the real one refuses an
    empty stream. *)
Definition gunzipNothing : list byte -> io.Reader + goerror :=
  fun _ => inr (errorString "EOF").

(** A response with the header [Content-Encoding: gzip], another header,
    and the body [data]. *)
Definition gzipResponse (data : list byte) : http.Response :=
  {| http.Status := "200 OK";
     http.StatusCode := 200;
     http.Proto := "HTTP/1.1";
     http.ProtoMajor := 1;
     http.ProtoMinor := 1;
     http.Header' := <["Content-Encoding" := ["gzip"]]>
                       (<["Content-Type" := ["text/html"]]> ∅);
     http.Body' := Some {| http.Reader := io.Source data io_EOF;
                           http.Closer := sends "" |};
     http.ContentLength := 0;
     http.Request' := None;
     http.TLS := None |}.

(** No two separators next to each other. *)
Fixpoint collapsed (l : list byte) : bool :=
  match l with
  | a :: t =>
      match t with
      | b :: _ => negb ((a =? space) && (b =? space))
      | [] => true
      end && collapsed t
  | [] => true
  end.

(** What the loop keeps true of the bytes given to the scanner so far and
    of [prevRune]. *)
Definition scanInv (fed : list byte) (prevRune : Z) : Prop :=
  collapsed fed = true /\ (last fed = Some space <-> prevRune = space).

(** The scanner state after the bytes [fed], starting from [ps]. *)
Definition afterBytes {PS : Type} (scanByte : PS -> byte -> PS) (ps : PS)
    (fed : Res (list byte)) : Res PS :=
  match fed with
  | Val bs => Val (fold_left scanByte bs ps)
  | Panic msg => Panic msg
  end.

(** ** Further parts of the source *)

(** A wrapped transport that fails every request with [err]. *)
Definition fails (err : goerror) : RoundTripper :=
  fun _ => (None, Some err).

(** A transport record with the given wrapped transport and recorded
    outcomes, for the chain [[originalCert]] and ["example.com"]. *)
Definition anchored (rt0 : RoundTripper) (errDefault errOriginal : error)
  : hardValidationTransport :=
  {| rt := rt0;
     originalCertificates := [originalCert];
     originalServerName := "example.com";
     originalCertPool := [originalCert];
     expectedErrDefault := errDefault;
     expectedErrOriginal := errOriginal |}.

(** Every verification fails because the certificate has expired. *)
Definition allExpired (c : x509.Certificate) (opts : x509.VerifyOptions)
  : error :=
  Some (CertificateInvalidError Expired).

Module ftp.
(** The values of the transfer's status stream: the two the source names,
    and any other. *)
Inductive Status :=
| COMPLETED
| ERROR
| OTHER (code : Z).
End ftp.

(** What the goroutine of transport.go:290-303 does to the write end of the
    pipe. *)
Inductive PipeEnd :=
| Closed
| ClosedWithError (err : goerror)
| NotClosed.

(** transport.go:290-303, [for stat := range xfer.Status { switch stat
    ... }]: [statuses] is what the status channel delivers, in order, and
    [xferError] what [<-xfer.Error] receives, if anything ever arrives
    there.  The loop ends at the first [COMPLETED] or [ERROR]; when the
    channel delivers neither, or no error arrives after [ERROR], the pipe
    is left open.  (The log line is not modelled.) *)
Fixpoint watchTransfer (statuses : list ftp.Status)
    (xferError : option goerror) : PipeEnd :=
  match statuses with
  | [] => NotClosed
  | ftp.COMPLETED :: _ => Closed
  | ftp.ERROR :: _ =>
      match xferError with
      | Some err => ClosedWithError err
      | None => NotClosed
      end
  | ftp.OTHER _ :: rest => watchTransfer rest xferError
  end.

Definition isTerminal (s : ftp.Status) : bool :=
  match s with
  | ftp.COMPLETED | ftp.ERROR => true
  | ftp.OTHER _ => false
  end.

(** phrase_scan.go:71-73, [for rule, n := range ps.tally { c.tally[rule] +=
    n }], for one order [entries] in which the loop meets the entries of
    [ps.tally]. *)
Definition tallyLoop (entries : list (string * Z)) (tally : gmap string Z)
  : gmap string Z :=
  fold_left
    (fun t e => <[e.1 := default 0 (t !! e.1) + e.2]> t)
    entries tally.

(** A [wordRune] for examples that keeps ASCII letters (in lower case) and
    digits and maps every other character to the separator. *)
Definition wordRune_alnum (c : Z) : Z :=
  if (65 <=? c) && (c <=? 90) then c + 32
  else if (97 <=? c) && (c <=? 122) then c
  else if (48 <=? c) && (c <=? 57) then c
  else space.

(** A string of [k] spaces. *)
Fixpoint spaces (k : nat) : string :=
  match k with
  | O => EmptyString
  | S k => String " " (spaces k)
  end.

(** A library like [exampleLib] whose dialer fails with [err]. *)
Definition refusingLib (err : goerror) : NetLib :=
  let L := exampleLib (sends "") in
  {| net_SplitHostPort := net_SplitHostPort L;
     net_JoinHostPort := net_JoinHostPort L;
     dialer_Dial := fun _ _ => inr err;
     ReadMIMEHeader := ReadMIMEHeader L;
     http_ParseHTTPVersion := http_ParseHTTPVersion L;
     Error := Error L;
     URL_String := URL_String L |}.

(** A body that delivers [data] and then breaks with a connection
    error. *)
Definition brokenBody (data : list byte) : http.Body :=
  {| http.Reader := io.Source data (otherError "*net.OpError"
                                      "connection reset by peer");
     http.Closer := sends "" |}.

(** A decompressor whose stream delivers [partial] and then fails. *)
Definition gunzipTruncated (partial : list byte)
  : list byte -> io.Reader + goerror :=
  fun _ => inl (io.Source partial io_ErrUnexpectedEOF).

(** A scanning library for examples: the scanner records its bytes and
    tallies, under the rule ["separators"], the separators it was given;
    the only charset known is US-ASCII; documents are plain text; scoring
    changes nothing. *)
Definition exampleScanLib : ScanLib :=
  {| phraseScanner := list byte;
     newPhraseScanner := [];
     scanByte := record;
     ps_tally := fun fed =>
       {["separators" :=
           Z.of_nat (length (filter (fun b => b = space) fed))]};
     wordRune := wordRune_alnum;
     findCharset := fun _ => "US-ASCII";
     contentType := fun _ => "text/plain";
     mahonia_NewDecoder := fun cs =>
       if bool_decide (cs = "US-ASCII") then Some decodeASCII else None;
     mahonia_EntityDecoder := decodeASCII;
     mahonia_FallbackDecoder := fun first _ => first;
     calculateScores := fun c => c |}.

(** * Properties *)

(** ** Errors *)

Lemma sameType_equivalent (a b : error) :
  sameType a b = true <-> equivalent a b.
Proof.
  unfold sameType, reflect_TypeOf, equivalent.
  rewrite bool_decide_eq_true.
  destruct a, b; simpl; split; try done; congruence.
Qed.

Lemma passes_spec (err expected : error) :
  passes err expected = true <-> err = None \/ equivalent err expected.
Proof.
  unfold passes. rewrite orb_true_iff, sameType_equivalent.
  destruct err; simpl; split; intros [H | H]; auto; discriminate.
Qed.

(** ** hardValidationTransport *)

Lemma Host_upgradeScheme (req : http.Request) :
  http.Host (upgradeScheme req) = http.Host req.
Proof. unfold upgradeScheme. by case_bool_decide. Qed.

Section HardValidationFacts.

Variable V : x509.Certificate -> x509.VerifyOptions -> error.

(** The steps every proof below starts with: the wrapped transport answered
    with [resp], whose chain is [leaf :: rest]. *)
Ltac enter Hrt Htls Hchain Horig :=
  unfold RoundTrip; cbv zeta; rewrite Hrt; cbn -[passes];
  rewrite Htls; cbn -[passes]; rewrite Hchain, Horig; cbn -[passes];
  unfold bytes_Equal.

(** C1, as amended: when the new leaf's key differs from the original
    one, the check of lines 141-147 accepts the response exactly when the
    verification against the default roots succeeds or fails with an
    error of the same category as [expectedErrDefault]. *)
Theorem default_check_accepts_iff t req resp cs leaf rest orig origRest :
  rt t (upgradeScheme req) = (Some resp, None) ->
  http.TLS resp = Some cs ->
  tls.PeerCertificates cs = leaf :: rest ->
  originalCertificates t = orig :: origRest ->
  x509.RawSubjectPublicKeyInfo leaf <> x509.RawSubjectPublicKeyInfo orig ->
  let outcome := V leaf (defaultCheckOptions (leaf :: rest) req) in
  acceptsAtDefaultCheck V t req resp leaf (leaf :: rest) <->
  outcome = None \/ equivalent outcome (expectedErrDefault t).
Proof.
  intros Hrt Htls Hchain Horig Hkey outcome.
  rewrite <- passes_spec. subst outcome.
  unfold acceptsAtDefaultCheck. enter Hrt Htls Hchain Horig.
  rewrite bool_decide_eq_false_2 by done. cbn -[passes].
  unfold defaultCheckOptions. rewrite Host_upgradeScheme. cbn -[passes].
  destruct (passes _ (expectedErrDefault t)); cbn -[passes].
  - done.
  - split; [intros H; discriminate H | discriminate].
Qed.

(** C2: a response whose leaf has the public key of the first certificate
    of the chain the transport was built from is returned as it is,
    whatever the rest of its chain, and no verification is made for
    it. *)
Theorem same_key_accepted rt0 serverName c0 others t req resp cs leaf rest :
  result (newHardValidationTransport V rt0 serverName (c0 :: others))
    = Val t ->
  rt0 (upgradeScheme req) = (Some resp, None) ->
  http.TLS resp = Some cs ->
  tls.PeerCertificates cs = leaf :: rest ->
  x509.RawSubjectPublicKeyInfo leaf = x509.RawSubjectPublicKeyInfo c0 ->
  forall V', RoundTrip V' t req =
               ([EvRoundTrip (upgradeScheme req)], Val (Some resp, None)).
Proof.
  intros Hnew Hrt Htls Hchain Hkey V'.
  cbn in Hnew. injection Hnew as <-.
  unfold RoundTrip. cbv zeta. cbn [rt originalCertificates].
  rewrite Hrt. cbn. rewrite Htls. cbn. rewrite Hchain. cbn.
  unfold bytes_Equal. by rewrite bool_decide_eq_true_2.
Qed.

(** C3: when the key differs and none of the checks passes (the two
    verifications for the request's host and, if that host is not the
    original server name, the two for the original server name), the
    body of the response is closed and the round trip returns
    [errCouldNotVerify]. *)
Theorem fails_closed t req resp cs leaf rest orig origRest body :
  rt t (upgradeScheme req) = (Some resp, None) ->
  http.TLS resp = Some cs ->
  tls.PeerCertificates cs = leaf :: rest ->
  originalCertificates t = orig :: origRest ->
  http.Body' resp = Some body ->
  x509.RawSubjectPublicKeyInfo leaf <> x509.RawSubjectPublicKeyInfo orig ->
  checkPasses V leaf rest (http.Host req) None (expectedErrDefault t)
    = false ->
  checkPasses V leaf rest (http.Host req) (Some (originalCertPool t))
    (expectedErrOriginal t) = false ->
  (http.Host req <> originalServerName t ->
   checkPasses V leaf rest (originalServerName t) None
     (expectedErrDefault t) = false /\
   checkPasses V leaf rest (originalServerName t)
     (Some (originalCertPool t)) (expectedErrOriginal t) = false) ->
  result (RoundTrip V t req) =
    Val (Some (setBody resp (Some (http.Close body))),
         Some errCouldNotVerify)
  /\ net.closed (http.Closer (http.Close body)) = true.
Proof.
  intros Hrt Htls Hchain Horig Hbody Hkey H2 H3 H4.
  split; [| reflexivity].
  unfold checkPasses in *. unfold result. enter Hrt Htls Hchain Horig.
  rewrite bool_decide_eq_false_2 by done. cbn -[passes].
  rewrite drop_0, Host_upgradeScheme, H2. cbn -[passes]. rewrite H3.
  case_bool_decide as Hhost; cbn -[passes].
  - unfold closeBody. by rewrite Hbody.
  - destruct (H4 Hhost) as [-> ->]. cbn -[passes].
    unfold closeBody. by rewrite Hbody.
Qed.

End HardValidationFacts.

Example pinned_built V resp :
  newHardValidationTransport V (answers resp) "example.com" [originalCert] =
    ([EvVerify originalCert
        {| x509.DNSName := "example.com";
           x509.Intermediates := Some [originalCert];
           x509.Roots := None |};
      EvVerify originalCert
        {| x509.DNSName := "example.com";
           x509.Intermediates := None;
           x509.Roots := Some [originalCert] |}],
     Val (pinned V resp)).
Proof. reflexivity. Qed.

(** An empty chain makes the construction panic at [certificates[0]]. *)
Example empty_chain_panics V rt0 serverName :
  newHardValidationTransport V rt0 serverName [] =
    ([], Panic "index out of range").
Proof. reflexivity. Qed.

Lemma default_check_accepts_iff_witness :
  let t := pinned selfSignedOriginal (tlsResponse [otherCert]) in
  let req := getRequest "https" "example.com" "/" in
  let outcome :=
    selfSignedOriginal otherCert (defaultCheckOptions [otherCert] req) in
  acceptsAtDefaultCheck selfSignedOriginal t req (tlsResponse [otherCert])
    otherCert [otherCert] <->
  outcome = None \/ equivalent outcome (expectedErrDefault t).
Proof.
  apply (default_check_accepts_iff selfSignedOriginal
           (pinned selfSignedOriginal (tlsResponse [otherCert]))
           (getRequest "https" "example.com" "/")
           (tlsResponse [otherCert])
           {| tls.PeerCertificates := [otherCert] |}
           otherCert [] originalCert []);
    [reflexivity | reflexivity | reflexivity | reflexivity | discriminate].
Defined.

(** C1, as stated, fails: the original certificate was not trusted by the
    default roots ([expectedErrDefault] is an unknown-authority failure),
    the new leaf has another key and verifies against the default roots;
    the two outcomes are not equivalent, and yet the response is accepted
    at the check of lines 141-147. *)
Lemma default_check_accepts_new_success :
  let t := pinned selfSignedOriginal (tlsResponse [otherCert]) in
  let req := getRequest "https" "example.com" "/" in
  let outcome :=
    selfSignedOriginal otherCert (defaultCheckOptions [otherCert] req) in
  expectedErrDefault t = Some UnknownAuthorityError /\
  outcome = None /\
  ~ equivalent outcome (expectedErrDefault t) /\
  acceptsAtDefaultCheck selfSignedOriginal t req (tlsResponse [otherCert])
    otherCert [otherCert].
Proof.
  cbv zeta. split; [reflexivity |]. split; [reflexivity |].
  split; [intros H; exact H | reflexivity].
Qed.

Lemma same_key_accepted_witness :
  let resp := tlsResponse [renewedCert; otherCert] in
  let req := getRequest "https" "example.com" "/" in
  RoundTrip onlyOriginalVerifies (pinned selfSignedOriginal resp) req =
    ([EvRoundTrip (upgradeScheme req)], Val (Some resp, None)).
Proof.
  apply (same_key_accepted selfSignedOriginal
           (answers (tlsResponse [renewedCert; otherCert]))
           "example.com" originalCert []
           (pinned selfSignedOriginal (tlsResponse [renewedCert; otherCert]))
           (getRequest "https" "example.com" "/")
           (tlsResponse [renewedCert; otherCert])
           {| tls.PeerCertificates := [renewedCert; otherCert] |}
           renewedCert [otherCert]);
    reflexivity.
Defined.

Lemma fails_closed_witness :
  let resp := tlsResponse [otherCert] in
  let req := getRequest "https" "other.example" "/" in
  let body := {| http.Reader := io.Source [] io_EOF;
                 http.Closer := sends "" |} in
  result (RoundTrip onlyOriginalVerifies (pinned onlyOriginalVerifies resp)
            req) =
    Val (Some (setBody resp (Some (http.Close body))),
         Some errCouldNotVerify)
  /\ net.closed (http.Closer (http.Close body)) = true.
Proof.
  apply (fails_closed onlyOriginalVerifies
           (pinned onlyOriginalVerifies (tlsResponse [otherCert]))
           (getRequest "https" "other.example" "/")
           (tlsResponse [otherCert])
           {| tls.PeerCertificates := [otherCert] |}
           otherCert [] originalCert []).
  - reflexivity.
  - reflexivity.
  - reflexivity.
  - reflexivity.
  - reflexivity.
  - discriminate.
  - reflexivity.
  - reflexivity.
  - intros _. split; reflexivity.
Defined.

(** ** Readers *)

Lemma Read_limited_exhausted (R : io.Reader) (N n : Z) :
  N <= 0 ->
  io.Read (io.LimitedReader R N) n = ([], Some io_EOF, io.LimitedReader R N).
Proof.
  intros HN. simpl. destruct (Z.leb_spec N 0) as [_ | Hlt]; [done | lia].
Qed.

Lemma ReadAll_limited_exhausted (R : io.Reader) (N : Z) :
  N <= 0 ->
  io.ReadAll (io.LimitedReader R N) = Some ([], None, io.LimitedReader R N).
Proof.
  intros HN. unfold io.ReadAll. cbn [io.ReadAll_loop].
  by rewrite Read_limited_exhausted.
Qed.

(** A [Read] into a non-empty buffer that reports no error has consumed
    input. *)
Lemma Read_progress (r : io.Reader) :
  forall n bs r', 1 <= n ->
    io.Read r n = (bs, None, r') -> (io.size r' < io.size r)%nat.
Proof.
  induction r as [pending final | R IH N]; intros n bs r' Hn HR.
  - simpl in HR. destruct pending as [| b pending]; [discriminate |].
    injection HR as _ <-. cbn [io.size]. rewrite length_drop.
    cbn [length]. lia.
  - simpl in HR. destruct (N <=? 0) eqn:HN; [discriminate |].
    apply Z.leb_gt in HN.
    destruct (io.Read R (if n >? N then N else n)) as [[bs' err'] R'] eqn:HR'.
    injection HR as _ -> <-. cbn [io.size].
    apply (IH (if n >? N then N else n) bs'); [| done].
    destruct (n >? N); lia.
Qed.

Lemma ReadAll_loop_total (fuel : nat) :
  forall r acc, (io.size r < fuel)%nat ->
    is_Some (io.ReadAll_loop fuel r acc).
Proof.
  induction fuel as [| fuel IH]; intros r acc Hsize; [lia |].
  cbn [io.ReadAll_loop].
  destruct (io.Read r 512) as [[bs [e |]] r'] eqn:HR; [by eexists |].
  apply IH. apply Read_progress in HR; lia.
Qed.

(** [io.ReadAll] always returns. *)
Lemma ReadAll_total (r : io.Reader) : is_Some (io.ReadAll r).
Proof. apply ReadAll_loop_total. lia. Qed.

(** What [io.ReadAll] reads from a [LimitedReader] over a buffered
    connection: the first [N] bytes of what is to come, or all of it when
    there is less; the error that ends the connection is reported only when
    it is reached and is not [EOF]. *)
Lemma ReadAll_loop_limited (fuel : nat) :
  forall pending final N acc,
    (length pending < fuel)%nat ->
    exists r',
      io.ReadAll_loop fuel (io.LimitedReader (io.Source pending final) N) acc
      = Some (acc ++ take (Z.to_nat N) pending,
              if (N <=? Z.of_nat (length pending)) || (N <=? 0) then None
              else if bool_decide (final = io_EOF) then None else Some final,
              r').
Proof.
  induction fuel as [| fuel IH]; intros pending final N acc Hlen; [lia |].
  cbn [io.ReadAll_loop io.Read].
  destruct (Z.leb_spec N 0) as [HN | HN].
  - eexists. rewrite orb_true_r.
    replace (Z.to_nat N) with 0%nat by lia. by rewrite take_0.
  - rewrite orb_false_r.
    destruct pending as [| b pending].
    + eexists. cbn [length]. destruct (Z.leb_spec N (Z.of_nat 0)); [lia |].
      by rewrite take_nil.
    + set (n := if 512 >? N then N else 512).
      assert (Hn : 1 <= n <= N) by (subst n; destruct (512 >? N) eqn:E; lia).
      set (p := b :: pending) in *.
      destruct (IH (drop (Z.to_nat n) p) final
                  (N - Z.of_nat (length (take (Z.to_nat n) p)))
                  (acc ++ take (Z.to_nat n) p)) as [r' Hr'].
      { rewrite length_drop. subst p. cbn [length] in *. lia. }
      exists r'. rewrite Hr'. f_equal. f_equal. f_equal.
      * rewrite <- app_assoc. f_equal.
        rewrite length_take, length_drop in *.
        destruct (decide (Z.to_nat n <= length p)%nat) as [Hle | Hgt].
        -- rewrite Nat.min_l by done.
           replace (Z.to_nat (N - Z.of_nat (Z.to_nat n)))
             with (Z.to_nat N - Z.to_nat n)%nat by lia.
           rewrite take_take_drop. f_equal. lia.
        -- rewrite (take_ge p (Z.to_nat n)) by lia.
           rewrite (drop_ge p (Z.to_nat n)) by lia.
           rewrite take_nil, app_nil_r. rewrite take_ge; [done | lia].
      * rewrite length_take, length_drop.
        destruct (Z.leb_spec N (Z.of_nat (length p)));
          destruct (Z.leb_spec
                      (N - Z.of_nat (Z.to_nat n `min` length p))
                      (Z.of_nat (length p - Z.to_nat n)));
          destruct (Z.leb_spec
                      (N - Z.of_nat (Z.to_nat n `min` length p)) 0);
          simpl; try done; lia.
Qed.

Lemma ReadAll_limited (pending : list byte) (final : goerror) (N : Z) :
  exists r',
    io.ReadAll (io.LimitedReader (io.Source pending final) N)
    = Some (take (Z.to_nat N) pending,
            if (N <=? Z.of_nat (length pending)) || (N <=? 0) then None
            else if bool_decide (final = io_EOF) then None else Some final,
            r').
Proof.
  unfold io.ReadAll.
  destruct (ReadAll_loop_limited (S (length pending)) pending final N [])
    as [r' Hr']; [lia |].
  exists r'. exact Hr'.
Qed.

(** ** simpleTransport *)

Lemma result_bind {A B} (m : M A) (k : A -> M B) (a : A) :
  result m = Val a -> result (bind m k) = result (k a).
Proof. unfold result, bind. by intros ->. Qed.

Lemma IndexByte_range (s : string) (c : ascii) :
  strings_IndexByte s c = -1 \/ 0 <= strings_IndexByte s c.
Proof.
  induction s as [| a s IH]; simpl; [by left |].
  destruct (Ascii.eqb a c); [right; lia |].
  destruct (Z.eqb_spec (strings_IndexByte s c) (-1)); [by left | right; lia].
Qed.

(** The status code the source cuts out of the status text is the first
    space-delimited token of that text. *)
Lemma statusCode_firstToken (s : string) :
  (if negb (strings_IndexByte s " " =? -1)
   then sliceTo s (strings_IndexByte s " ") else s) = firstToken s.
Proof.
  unfold sliceTo. induction s as [| a s IH]; [reflexivity |].
  cbn [strings_IndexByte firstToken].
  destruct (Ascii.eqb a " "); [reflexivity |].
  destruct (IndexByte_range s " ") as [Hi | Hi].
  - rewrite Hi in *. simpl in *. by rewrite <- IH.
  - destruct (Z.eqb_spec (strings_IndexByte s " ") (-1)) as [E | E]; [lia |].
    destruct (Z.eqb_spec (strings_IndexByte s " " + 1) (-1)); [lia |].
    simpl negb in *. cbv iota in *.
    replace (Z.to_nat (strings_IndexByte s " " + 1))
      with (S (Z.to_nat (strings_IndexByte s " "))) by lia.
    cbn [str_take]. by rewrite IH.
Qed.

(** [parseFirstLine] in terms of the token. *)
Lemma parseFirstLine_token (line : string) :
  strings_IndexByte line " " <> -1 ->
  let i := strings_IndexByte line " " in
  let tok := firstToken (statusText line i) in
  parseFirstLine line =
    if negb (len tok =? 3) then inr (malformedStatusCode tok)
    else match strconv_Atoi tok with
         | inr _ => inr (malformedStatusCode tok)
         | inl n => if n <? 0 then inr (malformedStatusCode tok)
                    else inl (sliceTo line i, statusText line i, n)
         end.
Proof.
  intros Hi i tok. unfold parseFirstLine.
  destruct (Z.eqb_spec (strings_IndexByte line " ") (-1)); [done |].
  cbv zeta. fold i. fold (statusText line i).
  rewrite statusCode_firstToken. fold tok. reflexivity.
Qed.

Lemma malformed_iff (line : string) :
  strings_IndexByte line " " <> -1 ->
  let tok := firstToken (statusText line (strings_IndexByte line " ")) in
  parseFirstLine line = inr (malformedStatusCode tok) <->
  String.length tok <> 3%nat \/ ~ parsesNonNegative tok.
Proof.
  intros Hi tok. rewrite (parseFirstLine_token line Hi). fold tok.
  unfold len, parsesNonNegative.
  destruct (Z.eqb_spec (Z.of_nat (String.length tok)) 3) as [H3 | H3];
    simpl negb; cbv iota.
  - destruct (strconv_Atoi tok) as [n | e] eqn:Hatoi.
    + destruct (Z.ltb_spec n 0) as [Hn | Hn].
      * split; [| done]. intros _. right. intros (m & [= <-] & Hm). lia.
      * split; [discriminate |].
        intros [Hlen | Hno]; [lia |]. destruct Hno. by exists n.
    + split; [| done]. intros _. right. by intros (m & [=] & _).
  - split; [| done]. intros _. left. lia.
Qed.

(** A token that [strconv.Atoi] accepts is made of a sign and decimal
    digits, all of them ASCII: for such a token the number of characters is
    the number of bytes, which is what [len] counts. *)
Lemma parseDigits_ascii (s : string) :
  forall acc n, parseDigits s acc = Some n ->
    Forall (fun a => byte_of_ascii a < 128) (list_ascii_of_string s).
Proof.
  induction s as [| c s IH]; intros acc n Hp; [constructor |].
  cbn [parseDigits list_ascii_of_string] in *.
  unfold digitVal in Hp.
  destruct (Z.leb_spec 48 (byte_of_ascii c)); [| discriminate].
  destruct (Z.leb_spec (byte_of_ascii c) 57); [| discriminate].
  cbn in Hp. constructor; [lia | by eapply IH].
Qed.

Lemma parsed_token_is_ascii (tok : string) (n : Z) :
  strconv_Atoi tok = inl n ->
  Forall (fun a => byte_of_ascii a < 128) (list_ascii_of_string tok).
Proof.
  unfold strconv_Atoi, parseInt10. destruct tok as [| c rest]; [done |].
  intros H.
  destruct (Ascii.eqb c "+" || Ascii.eqb c "-") eqn:Hsign.
  - destruct rest as [| c' rest']; [done |].
    destruct (parseDigits (String c' rest') 0) as [un |] eqn:Hd; [| done].
    change (list_ascii_of_string (String c (String c' rest')))
      with (c :: list_ascii_of_string (String c' rest')).
    constructor; [| by eapply parseDigits_ascii].
    apply orb_true_iff in Hsign as [E | E]; apply Ascii.eqb_eq in E;
      by subst c.
  - destruct (parseDigits (String c rest) 0) as [un |] eqn:Hd; [| done].
    by eapply parseDigits_ascii.
Qed.

Section SimpleTransportFacts.

Variable L : NetLib.

(** What [readHead] does once the first line [line] has been read. *)
Lemma readHead_first_line req conn line rest :
  http.Method req = "GET" ->
  url.Scheme (http.URL req) = "http" ->
  dialer_Dial L "tcp" (dialAddress L req) = inl conn ->
  net.writeErr conn = None ->
  ReadLine (net.incoming conn) (net.final conn) = (line, None, rest) ->
  readHead L req =
    ([EvDial "tcp" (dialAddress L req); EvWrite req],
     Val match parseFirstLine line with
         | inr err => inr err
         | inl (Proto, Status, StatusCode) =>
             let '(ProtoMajor, ProtoMinor, ok) :=
               http_ParseHTTPVersion L Proto in
             if negb ok
             then inr (fmt_Errorf "malformed HTTP version: %q" [Proto])
             else
               let '(mimeHeader, err, br) :=
                 ReadMIMEHeader L rest (net.final conn) in
               match err with
               | Some err => inr (unexpectedEOF err)
               | None =>
                   inl {| hConn := conn; hProto := Proto; hStatus := Status;
                          hStatusCode := StatusCode;
                          hProtoMajor := ProtoMajor;
                          hProtoMinor := ProtoMinor;
                          hHeader := mimeHeader; hRest := br |}
               end
         end).
Proof.
  intros Hm Hs Hd Hw Hl. unfold readHead.
  rewrite bool_decide_eq_true_2 by done. simpl negb. cbv iota.
  rewrite bool_decide_eq_true_2 by done. simpl negb. cbv iota zeta.
  rewrite Hd, Hw, Hl.
  destruct (parseFirstLine line) as [[[Proto Status] StatusCode] | err];
    [| reflexivity].
  destruct (http_ParseHTTPVersion L Proto) as [[maj min] ok].
  destruct ok; [| reflexivity]. simpl negb. cbv iota.
  destruct (ReadMIMEHeader L rest (net.final conn)) as [[hdr [e |]] br];
    reflexivity.
Qed.

(** The status code of a response that is returned is the one read from
    the first line. *)
Lemma returned_StatusCode req h resp err :
  result (readHead L req) = Val (inl h) ->
  result (simpleTransport_RoundTrip L req) = Val (Some resp, err) ->
  http.StatusCode resp = hStatusCode h.
Proof.
  intros Hh. unfold simpleTransport_RoundTrip.
  rewrite (result_bind _ _ _ Hh). unfold result, ret, finish. simpl.
  destruct (if negb _ then _ else _) as [n | e]; [| discriminate].
  by intros [= <- _].
Qed.

(** C5: once the first line has been read and has a space, the status-line
    stage fails with the malformed-status-code error exactly when the first
    space-delimited token of the status text is not 3 characters long or
    does not parse as a non-negative base-10 integer; the round trip then
    returns that error; otherwise the parsed number is the status code;
    ["HTTP/1.1 2 OK"] is rejected and ["HTTP/1.1 200 OK"] gives 200. *)
Theorem malformed_status_code req conn line rest :
  http.Method req = "GET" ->
  url.Scheme (http.URL req) = "http" ->
  dialer_Dial L "tcp" (dialAddress L req) = inl conn ->
  net.writeErr conn = None ->
  ReadLine (net.incoming conn) (net.final conn) = (line, None, rest) ->
  strings_IndexByte line " " <> -1 ->
  let i := strings_IndexByte line " " in
  let tok := firstToken (statusText line i) in
  let malformed := String.length tok <> 3%nat \/ ~ parsesNonNegative tok in
  (parseFirstLine line = inr (malformedStatusCode tok) <-> malformed)
  /\ (malformed ->
      simpleTransport_RoundTrip L req =
        ([EvDial "tcp" (dialAddress L req); EvWrite req],
         Val (None, Some (malformedStatusCode tok))))
  /\ (~ malformed ->
      exists n, strconv_Atoi tok = inl n /\ 0 <= n /\
        parseFirstLine line = inl (sliceTo line i, statusText line i, n) /\
        forall resp err,
          result (simpleTransport_RoundTrip L req) = Val (Some resp, err) ->
          http.StatusCode resp = n)
  /\ parseFirstLine "HTTP/1.1 2 OK" = inr (malformedStatusCode "2")
  /\ parseFirstLine "HTTP/1.1 200 OK" = inl ("HTTP/1.1", "200 OK", 200).
Proof.
  intros Hm Hs Hd Hw Hl Hi i tok malformed.
  pose proof (malformed_iff line Hi) as Hiff. fold i tok malformed in Hiff.
  pose proof (readHead_first_line req conn line rest Hm Hs Hd Hw Hl) as Hh.
  repeat split; try reflexivity; try apply Hiff.
  - intros Hbad. apply Hiff in Hbad.
    unfold simpleTransport_RoundTrip. rewrite Hh, Hbad. reflexivity.
  - intros Hgood.
    pose proof (parseFirstLine_token line Hi) as Htok.
    subst malformed tok. cbv zeta in Htok. fold i in Htok.
    unfold len in Htok.
    set (tok := firstToken (statusText line i)) in *.
    destruct (Z.eqb_spec (Z.of_nat (String.length tok)) 3) as [H3 | H3];
      [| destruct Hgood; left; lia].
    simpl negb in Htok. cbv iota in Htok.
    destruct (strconv_Atoi tok) as [n | e] eqn:Hatoi;
      [| destruct Hgood; right; intros (m & Hm' & _); congruence].
    destruct (Z.ltb_spec n 0) as [Hn | Hn];
      [destruct Hgood; right; intros (m & Hm' & Hpos);
       assert (m = n) by congruence; lia |].
    exists n. repeat split; [done | done |].
    intros resp err HR. rewrite Htok in Hh.
    destruct (http_ParseHTTPVersion L (sliceTo line i)) as [[maj min] ok].
    destruct ok;
      [| unfold simpleTransport_RoundTrip in HR; rewrite Hh in HR;
         discriminate HR].
    simpl negb in Hh. cbv iota in Hh.
    destruct (ReadMIMEHeader L rest (net.final conn)) as [[hdr [e |]] br];
      [unfold simpleTransport_RoundTrip in HR; rewrite Hh in HR;
       discriminate HR |].
    eapply (returned_StatusCode req _ resp err) in HR;
      [| rewrite Hh; reflexivity].
    exact HR.
Qed.

End SimpleTransportFacts.

Lemma Get_absent (h : http.Header) (key : string) :
  h !! key = None -> http.Get h key = "".
Proof. unfold http.Get. by intros ->. Qed.

Lemma ParseInt_nonempty (s : string) (n : Z) :
  strconv_ParseInt s 64 = inl n -> s <> "".
Proof. by destruct s. Qed.

(** What [simpleTransport.RoundTrip] returns once the head has been read
    and the content length [N] settled. *)
Lemma RoundTrip_finish L req h :
  result (readHead L req) = Val (inl h) ->
  result (simpleTransport_RoundTrip L req) = Val (finish req h).
Proof.
  intros Hh. unfold simpleTransport_RoundTrip.
  by rewrite (result_bind _ _ _ Hh).
Qed.

(** C9: a Content-Length that parses as a negative integer is not an
    error: the response is returned with that content length, and its body
    is at its end from the first read. *)
Theorem negative_Content_Length L req h n :
  result (readHead L req) = Val (inl h) ->
  strconv_ParseInt (http.Get (hHeader h) "Content-Length") 64 = inl n ->
  n < 0 ->
  exists resp body,
    result (simpleTransport_RoundTrip L req) = Val (Some resp, None)
    /\ http.ContentLength resp = n
    /\ http.Body' resp = Some body
    /\ (forall k, result (readBody resp k) = Val ([], Some io_EOF))
    /\ io.ReadAll (http.Reader body) = Some ([], None, http.Reader body).
Proof.
  intros Hh Hparse Hneg.
  rewrite (RoundTrip_finish L req h Hh). unfold finish. cbv zeta.
  rewrite bool_decide_eq_false_2 by (by eapply ParseInt_nonempty).
  simpl negb. cbv iota. rewrite Hparse.
  eexists. eexists. split; [reflexivity |].
  split; [reflexivity |]. split; [reflexivity |]. split.
  - intros k. unfold readBody. cbn [http.Body' deref http.Reader].
    unfold result, bind, ret. cbn [snd fst http.Reader].
    by rewrite Read_limited_exhausted by lia.
  - cbn [http.Reader]. apply ReadAll_limited_exhausted. lia.
Qed.

(** C4, as amended: for a response whose head has been read, the body
    yields the first [n] bytes of what follows the header block when the
    Content-Length header is present and parses as [n] (exactly [n] bytes
    when [0 <= n] and that many are to come); it yields nothing when the
    header is absent or empty, because the content length keeps its zero
    value; closing the body closes the connection. *)
Theorem content_length_limits_body L req h :
  result (readHead L req) = Val (inl h) ->
  let cl := http.Get (hHeader h) "Content-Length" in
  (forall n, strconv_ParseInt cl 64 = inl n ->
     exists resp body err r',
       result (simpleTransport_RoundTrip L req) = Val (Some resp, None)
       /\ http.Body' resp = Some body
       /\ io.ReadAll (http.Reader body)
          = Some (take (Z.to_nat n) (hRest h), err, r')
       /\ (0 <= n <= Z.of_nat (length (hRest h)) ->
           Z.of_nat (length (take (Z.to_nat n) (hRest h))) = n
           /\ err = None)
       /\ http.Closer body = hConn h
       /\ net.closed (http.Closer (http.Close body)) = true)
  /\ (hHeader h !! "Content-Length" = None -> cl = "")
  /\ (cl = "" ->
      exists resp body,
        result (simpleTransport_RoundTrip L req) = Val (Some resp, None)
        /\ http.Body' resp = Some body
        /\ io.ReadAll (http.Reader body)
           = Some ([], None, http.Reader body)
        /\ (forall k, io.Read (http.Reader body) k
                      = ([], Some io_EOF, http.Reader body))
        /\ http.Closer body = hConn h
        /\ net.closed (http.Closer (http.Close body)) = true).
Proof.
  intros Hh cl. rewrite (RoundTrip_finish L req h Hh). unfold finish.
  cbv zeta. fold cl. split; [| split].
  - intros n Hparse.
    rewrite bool_decide_eq_false_2 by (by eapply ParseInt_nonempty).
    simpl negb. cbv iota. rewrite Hparse.
    destruct (ReadAll_limited (hRest h) (net.final (hConn h)) n)
      as [r' Hr'].
    eexists. eexists. eexists. exists r'.
    split; [reflexivity |]. split; [reflexivity |].
    cbn [http.Reader http.Closer]. split; [exact Hr' |].
    split; [| done].
    intros Hn. rewrite length_take. split; [lia |].
    destruct (Z.leb_spec n (Z.of_nat (length (hRest h)))); [done | lia].
  - apply Get_absent.
  - intros ->. rewrite bool_decide_eq_true_2 by done. simpl negb. cbv iota.
    eexists. eexists. split; [reflexivity |]. split; [reflexivity |].
    cbn [http.Reader http.Closer]. split; [| split; [| done]].
    + by apply ReadAll_limited_exhausted.
    + intros k. by apply Read_limited_exhausted.
Qed.

(** *** The client on concrete connections *)

(** A response with a Content-Length of 5: status 200, protocol 1.1, a body
    of exactly ["hello"], and no Content-Length among the headers. *)
Example well_formed_response :
  let conn := sends ("HTTP/1.1 200 OK" +:+ CRLF +:+ "Content-Length: 5"
                     +:+ CRLF +:+ CRLF +:+ "hello") in
  exists resp body r',
    simpleTransport_RoundTrip (exampleLib conn)
      (getRequest "http" "example.com" "/")
    = ([EvDial "tcp" "example.com:80";
        EvWrite (getRequest "http" "example.com" "/")],
       Val (Some resp, None))
    /\ http.StatusCode resp = 200
    /\ (http.ProtoMajor resp, http.ProtoMinor resp) = (1, 1)
    /\ http.Header' resp !! "Content-Length" = None
    /\ http.Body' resp = Some body
    /\ io.ReadAll (http.Reader body)
       = Some (bytes_of_string "hello", None, r').
Proof.
  cbv zeta. eexists. eexists. eexists.
  split; [vm_compute; reflexivity |].
  split; [reflexivity |]. split; [reflexivity |].
  split; [vm_compute; reflexivity |].
  split; [reflexivity |]. vm_compute. reflexivity.
Qed.

Lemma malformed_status_code_witness :
  let conn := sends ("HTTP/1.1 2 OK" +:+ CRLF +:+ CRLF) in
  let L := exampleLib conn in
  let req := getRequest "http" "example.com" "/" in
  let line := "HTTP/1.1 2 OK" in
  let i := strings_IndexByte line " " in
  let tok := firstToken (statusText line i) in
  let malformed := String.length tok <> 3%nat \/ ~ parsesNonNegative tok in
  tok = "2"
  /\ (parseFirstLine line = inr (malformedStatusCode tok) <-> malformed)
  /\ (malformed ->
      simpleTransport_RoundTrip L req =
        ([EvDial "tcp" (dialAddress L req); EvWrite req],
         Val (None, Some (malformedStatusCode tok))))
  /\ (~ malformed ->
      exists n, strconv_Atoi tok = inl n /\ 0 <= n /\
        parseFirstLine line = inl (sliceTo line i, statusText line i, n) /\
        forall resp err,
          result (simpleTransport_RoundTrip L req) = Val (Some resp, err) ->
          http.StatusCode resp = n)
  /\ parseFirstLine "HTTP/1.1 2 OK" = inr (malformedStatusCode "2")
  /\ parseFirstLine "HTTP/1.1 200 OK" = inl ("HTTP/1.1", "200 OK", 200).
Proof.
  split; [reflexivity |].
  apply (malformed_status_code
           (exampleLib (sends ("HTTP/1.1 2 OK" +:+ CRLF +:+ CRLF)))
           (getRequest "http" "example.com" "/")
           (sends ("HTTP/1.1 2 OK" +:+ CRLF +:+ CRLF))
           "HTTP/1.1 2 OK" (bytes_of_string CRLF));
    [reflexivity | reflexivity | reflexivity | reflexivity | reflexivity
    | vm_compute; discriminate].
Defined.

Lemma negative_Content_Length_witness :
  let conn := sends ("HTTP/1.1 200 OK" +:+ CRLF +:+ "Content-Length: -5"
                     +:+ CRLF +:+ CRLF +:+ "hello") in
  exists resp body,
    result (simpleTransport_RoundTrip (exampleLib conn)
              (getRequest "http" "example.com" "/"))
    = Val (Some resp, None)
    /\ http.ContentLength resp = -5
    /\ http.Body' resp = Some body
    /\ (forall k, result (readBody resp k) = Val ([], Some io_EOF))
    /\ io.ReadAll (http.Reader body) = Some ([], None, http.Reader body).
Proof.
  eapply (negative_Content_Length
            (exampleLib
               (sends ("HTTP/1.1 200 OK" +:+ CRLF +:+ "Content-Length: -5"
                       +:+ CRLF +:+ CRLF +:+ "hello")))
            (getRequest "http" "example.com" "/")).
  - vm_compute. reflexivity.
  - vm_compute. reflexivity.
  - lia.
Defined.

Lemma content_length_limits_body_witness :
  let conn := sends ("HTTP/1.1 200 OK" +:+ CRLF +:+ "Content-Length: 5"
                     +:+ CRLF +:+ CRLF +:+ "hello world") in
  exists h,
    result (readHead (exampleLib conn) (getRequest "http" "example.com" "/"))
    = Val (inl h)
    /\ hRest h = bytes_of_string "hello world"
    /\ http.Get (hHeader h) "Content-Length" = "5"
    /\ exists resp body err r',
         result (simpleTransport_RoundTrip (exampleLib conn)
                   (getRequest "http" "example.com" "/"))
         = Val (Some resp, None)
         /\ http.Body' resp = Some body
         /\ io.ReadAll (http.Reader body)
            = Some (take (Z.to_nat 5) (hRest h), err, r')
         /\ (0 <= 5 <= Z.of_nat (length (hRest h)) ->
             Z.of_nat (length (take (Z.to_nat 5) (hRest h))) = 5
             /\ err = None)
         /\ http.Closer body = hConn h
         /\ net.closed (http.Closer (http.Close body)) = true.
Proof.
  cbv zeta. eexists. split; [vm_compute; reflexivity |].
  split; [reflexivity |]. split; [vm_compute; reflexivity |].
  eapply (content_length_limits_body
            (exampleLib
               (sends ("HTTP/1.1 200 OK" +:+ CRLF +:+ "Content-Length: 5"
                       +:+ CRLF +:+ CRLF +:+ "hello world")))
            (getRequest "http" "example.com" "/")).
  - vm_compute. reflexivity.
  - vm_compute. reflexivity.
Defined.

(** C4, as stated, fails: the response has no Content-Length header and
    five bytes follow the header block; the body is a reader limited to
    zero bytes and yields none of them. *)
Lemma absent_content_length_empty_body :
  let conn := sends ("HTTP/1.1 200 OK" +:+ CRLF +:+ CRLF +:+ "hello") in
  exists h resp body,
    result (readHead (exampleLib conn) (getRequest "http" "example.com" "/"))
    = Val (inl h)
    /\ hHeader h !! "Content-Length" = None
    /\ hRest h = bytes_of_string "hello"
    /\ result (simpleTransport_RoundTrip (exampleLib conn)
                 (getRequest "http" "example.com" "/"))
       = Val (Some resp, None)
    /\ http.Body' resp = Some body
    /\ http.Reader body
       = io.LimitedReader (io.Source (bytes_of_string "hello") io_EOF) 0
    /\ io.ReadAll (http.Reader body) = Some ([], None, http.Reader body).
Proof.
  cbv zeta. eexists. eexists. eexists.
  split; [vm_compute; reflexivity |].
  split; [vm_compute; reflexivity |].
  split; [reflexivity |].
  split; [vm_compute; reflexivity |].
  split; [reflexivity |].
  split; [reflexivity |]. vm_compute. reflexivity.
Qed.

(** ** FTPTransport *)

(** C8, on the code: for a method other than GET the round trip makes no
    call to the FTP library and returns, without error, a response with
    status 405 whose [Body] is nil: there is no empty stream to read, and
    reading or closing the body dereferences nil. *)
Theorem method_not_allowed_has_nil_body (L : FTPLib) (req : http.Request) :
  http.Method req <> "GET" ->
  exists resp,
    FTPTransport_RoundTrip L req = ([], Val (Some resp, None))
    /\ http.StatusCode resp = 405
    /\ http.Request' resp = Some req
    /\ http.Body' resp = None
    /\ (forall n, readBody resp n
          = ([], Panic "invalid memory address or nil pointer dereference"))
    /\ closeBody resp
       = ([], Panic "invalid memory address or nil pointer dereference").
Proof.
  intros Hm. unfold FTPTransport_RoundTrip.
  rewrite bool_decide_eq_false_2 by done. simpl negb. cbv iota.
  eexists. split; [reflexivity |]. repeat split; reflexivity.
Qed.

Lemma method_not_allowed_has_nil_body_witness :
  let L := {| ftp_GetAsync := fun _ => inr (errorString "no network");
              mime_TypeByExtension := fun _ => "" |} in
  let req := {| http.Method := "PUT";
                http.URL := {| url.Scheme := "ftp";
                               url.Host := "ftp.example.com";
                               url.Path := "/pub/file.txt" |};
                http.Host := "ftp.example.com" |} in
  exists resp,
    FTPTransport_RoundTrip L req = ([], Val (Some resp, None))
    /\ http.StatusCode resp = 405
    /\ http.Request' resp = Some req
    /\ http.Body' resp = None
    /\ (forall n, readBody resp n
          = ([], Panic "invalid memory address or nil pointer dereference"))
    /\ closeBody resp
       = ([], Panic "invalid memory address or nil pointer dereference").
Proof.
  apply (method_not_allowed_has_nil_body
           {| ftp_GetAsync := fun _ => inr (errorString "no network");
              mime_TypeByExtension := fun _ => "" |}
           {| http.Method := "PUT";
              http.URL := {| url.Scheme := "ftp";
                             url.Host := "ftp.example.com";
                             url.Path := "/pub/file.txt" |};
              http.Host := "ftp.example.com" |}).
  discriminate.
Defined.

(** The GET path gives the response a body. *)
Example get_has_body (L : FTPLib) (req : http.Request) (r : http.Body) :
  http.Method req = "GET" ->
  ftp_GetAsync L (url.Host (http.URL req) +:+ url.Path (http.URL req))
    = inl r ->
  exists resp,
    result (FTPTransport_RoundTrip L req) = Val (Some resp, None)
    /\ http.StatusCode resp = 200
    /\ http.Body' resp = Some r.
Proof.
  intros Hm Hget. unfold FTPTransport_RoundTrip.
  rewrite bool_decide_eq_true_2 by done. simpl negb. cbv iota zeta.
  unfold result, bind, emit. cbn [fst snd]. rewrite Hget.
  eexists. split; [reflexivity |]. split; reflexivity.
Qed.

(** ** responseContent *)

Section ResponseContentFacts.

Variable gzip_NewReader : list byte -> io.Reader + goerror.

(** C7: with a gzip Content-Encoding, an empty compressed body gives empty
    content without a panic and without a call of [gzip.NewReader]; a
    non-empty body that [gzip.NewReader] accepts and whose decompressed
    stream is [original] gives [original], and the Content-Encoding header
    is gone afterwards. *)
Theorem gzip_content res body :
  http.Body' res = Some body ->
  http.Get (http.Header' res) "Content-Encoding" = "gzip" ->
  (forall rd,
     io.ReadAll (http.Reader body) = Some ([], None, rd) ->
     oResult (responseContent gzip_NewReader res) = Val []
     /\ oEvents (responseContent gzip_NewReader res) = [])
  /\ (forall gzContent rd gz original gzrd,
        io.ReadAll (http.Reader body) = Some (gzContent, None, rd) ->
        gzContent <> [] ->
        gzip_NewReader gzContent = inl gz ->
        io.ReadAll gz = Some (original, None, gzrd) ->
        oResult (responseContent gzip_NewReader res) = Val original
        /\ http.Header' (oRes (responseContent gzip_NewReader res))
             !! "Content-Encoding" = None
        /\ http.Get (http.Header' (oRes (responseContent gzip_NewReader res)))
             "Content-Encoding" = "").
Proof.
  intros Hbody Henc. unfold responseContent. rewrite Hbody.
  rewrite bool_decide_eq_true_2 by done. split.
  - intros rd ->. by cbn.
  - intros gzContent rd gz original gzrd -> Hne -> ->.
    destruct gzContent as [| b gzContent]; [done |]. cbn.
    unfold http.Get, http.Del. by rewrite lookup_delete_eq.
Qed.

(** C10: with a gzip Content-Encoding and an empty compressed body the
    headers are left as they were, Content-Encoding included; on every
    path the headers other than Content-Encoding are unchanged; and the
    headers change at all only where a non-empty body was given to
    [gzip.NewReader] and accepted. *)
Theorem headers_frame res :
  (forall body rd,
     http.Body' res = Some body ->
     http.Get (http.Header' res) "Content-Encoding" = "gzip" ->
     io.ReadAll (http.Reader body) = Some ([], None, rd) ->
     oResult (responseContent gzip_NewReader res) = Val []
     /\ http.Header' (oRes (responseContent gzip_NewReader res))
        = http.Header' res
     /\ http.Get (http.Header' (oRes (responseContent gzip_NewReader res)))
          "Content-Encoding" = "gzip")
  /\ (forall key, key <> "Content-Encoding" ->
        http.Header' (oRes (responseContent gzip_NewReader res)) !! key
        = http.Header' res !! key)
  /\ (http.Header' (oRes (responseContent gzip_NewReader res))
        <> http.Header' res ->
      exists gzContent gz,
        gzContent <> []
        /\ gzip_NewReader gzContent = inl gz
        /\ oEvents (responseContent gzip_NewReader res)
           = [EvGzipNewReader gzContent]
        /\ http.Header' (oRes (responseContent gzip_NewReader res))
           = http.Del (http.Header' res) "Content-Encoding").
Proof.
  unfold responseContent. split; [| split].
  - intros body rd -> Henc ->.
    rewrite bool_decide_eq_true_2 by done. by cbn.
  - intros key Hkey.
    destruct (http.Body' res) as [body |]; [| done].
    case_bool_decide.
    + destruct (io.ReadAll (http.Reader body)) as [[[gzContent [e |]] rd] |];
        [done | | done].
      destruct gzContent as [| b gzContent]; [done |]. cbn [length Nat.eqb].
      destruct (gzip_NewReader (b :: gzContent)) as [gz | e]; [| done].
      destruct (io.ReadAll gz) as [[[content e] gzrd] |]; cbn;
        unfold http.Del; by rewrite lookup_delete_ne.
    + by destruct (io.ReadAll (http.Reader body)) as [[[content e] rd] |].
  - destruct (http.Body' res) as [body |]; [| done].
    case_bool_decide.
    + destruct (io.ReadAll (http.Reader body)) as [[[gzContent [e |]] rd] |];
        [done | | done].
      destruct gzContent as [| b gzContent]; [done |]. cbn [length Nat.eqb].
      destruct (gzip_NewReader (b :: gzContent)) as [gz | e] eqn:Hgz;
        [| done].
      intros _. exists (b :: gzContent), gz.
      split; [done |]. split; [done |].
      by destruct (io.ReadAll gz) as [[[content e] gzrd] |].
    + by destruct (io.ReadAll (http.Reader body)) as [[[content e] rd] |].
Qed.

End ResponseContentFacts.

Lemma gzip_content_witness :
  (oResult (responseContent gunzipNothing (gzipResponse [])) = Val []
   /\ oEvents (responseContent gunzipNothing (gzipResponse [])) = [])
  /\ (let out := responseContent
                   (gunzipOnly helloGz (bytes_of_string "hello"))
                   (gzipResponse helloGz) in
      oResult out = Val (bytes_of_string "hello")
      /\ http.Header' (oRes out) !! "Content-Encoding" = None
      /\ http.Get (http.Header' (oRes out)) "Content-Encoding" = "").
Proof.
  split.
  - eapply (gzip_content gunzipNothing (gzipResponse []));
      [reflexivity | vm_compute; reflexivity | vm_compute; reflexivity].
  - eapply (gzip_content (gunzipOnly helloGz (bytes_of_string "hello"))
              (gzipResponse helloGz));
      [reflexivity | vm_compute; reflexivity | vm_compute; reflexivity
      | discriminate | vm_compute; reflexivity | vm_compute; reflexivity].
Defined.

Lemma headers_frame_witness :
  let out := responseContent gunzipNothing (gzipResponse []) in
  oResult out = Val []
  /\ http.Header' (oRes out) = http.Header' (gzipResponse [])
  /\ http.Get (http.Header' (oRes out)) "Content-Encoding" = "gzip".
Proof.
  eapply (headers_frame gunzipNothing (gzipResponse []));
    [reflexivity | vm_compute; reflexivity | vm_compute; reflexivity].
Defined.

(** The other header of the example survives decompression. *)
Example other_header_kept :
  http.Header'
    (oRes (responseContent (gunzipOnly helloGz (bytes_of_string "hello"))
             (gzipResponse helloGz))) !! "Content-Type"
  = Some ["text/html"].
Proof. vm_compute. reflexivity. Qed.

(** ** scanContent *)

Lemma collapsed_snoc (acc : list byte) (b : byte) :
  collapsed acc = true ->
  (last acc = Some space -> b <> space) ->
  collapsed (acc ++ [b]) = true.
Proof.
  induction acc as [| a t IH]; intros Hc Hlast; [reflexivity |].
  destruct t as [| a' t'].
  - cbn. rewrite andb_true_r. apply negb_true_iff, andb_false_iff.
    destruct (Z.eqb_spec a space) as [-> | Ha]; [| by left].
    right. apply Z.eqb_neq. by apply Hlast.
  - cbn [collapsed app] in *. apply andb_true_iff in Hc as [Hc1 Hc2].
    rewrite Hc1. cbn [andb]. apply IH; [exact Hc2 |].
    intros Hl. apply Hlast. exact Hl.
Qed.

Lemma collapsed_app (l : list byte) :
  forall acc,
    collapsed acc = true ->
    Forall (fun b => b <> space) l ->
    collapsed (acc ++ l) = true
    /\ (l <> [] -> last (acc ++ l) <> Some space).
Proof.
  induction l as [| x l IH]; intros acc Hc Hall.
  - rewrite app_nil_r. by split.
  - apply Forall_cons in Hall as [Hx Hall].
    replace (acc ++ x :: l) with ((acc ++ [x]) ++ l)
      by by rewrite <- app_assoc.
    destruct (IH (acc ++ [x])) as [Hc' Hlast'];
      [by apply collapsed_snoc | done |].
    split; [done |]. intros _.
    destruct l as [| y l]; [| by apply Hlast'].
    rewrite app_nil_r, last_snoc. by intros [=].
Qed.

Lemma lor_high_bit (k x : Z) :
  Z.testbit k 7 = true -> Z.lor k x <> space.
Proof.
  intros Hk H. apply (f_equal (fun z => Z.testbit z 7)) in H.
  rewrite Z.lor_spec, Hk in H. discriminate H.
Qed.

(** The encoding of a rune above 127 has no separator in it. *)
Lemma EncodeRune_no_space (c : Z) :
  128 <= c < 2 ^ 31 ->
  Forall (fun b => b <> space) (utf8_EncodeRune c)
  /\ utf8_EncodeRune c <> [].
Proof.
  intros Hc. unfold utf8_EncodeRune.
  rewrite (Z.mod_small c (2 ^ 32)) by lia. cbv zeta.
  destruct (Z.leb_spec c 127); [lia |].
  repeat match goal with
         | |- context [if ?b then _ else _] => destruct b
         end;
    (split; [| done]); repeat constructor; by apply lor_high_bit.
Qed.

Section ScanFacts.

Variable wordRune : Z -> Z.
Variable d : mahonia.Decoder.

Hypothesis Hprogress : progresses d.
Hypothesis HwordRune : forall c, 0 <= wordRune c < 2 ^ 31.

Lemma scanLoop_collapses (fuel : nat) :
  forall ds content prevRune fed,
    (length content <= fuel)%nat ->
    scanInv fed prevRune ->
    exists more prevRune',
      scanLoop record wordRune d fuel ds content prevRune fed
        = Some (Val (fed ++ more))
      /\ scanInv (fed ++ more) prevRune'.
Proof.
  induction fuel as [| fuel IH]; intros ds content prevRune fed Hlen Hinv.
  - destruct content; [| cbn in Hlen; lia].
    exists [], prevRune. by rewrite app_nil_r.
  - destruct content as [| b rest].
    { exists [], prevRune. by rewrite app_nil_r. }
    set (content := b :: rest) in *.
    cbn [scanLoop]. fold content.
    pose proof (Hprogress ds content) as Hp.
    destruct (mahonia.step d ds content) as [[[c size] status] ds'].
    destruct Hp as [Hsize Hmin]; [done |].
    destruct (Z.ltb_spec size 0); [lia |].
    destruct (Z.ltb_spec (Z.of_nat (length content)) size); [lia |].
    cbn [orb].
    assert (Hrest : status <> mahonia.NO_ROOM ->
                    (length (drop (Z.to_nat size) content) <= fuel)%nat).
    { intros Hs. specialize (Hmin Hs). rewrite length_drop.
      subst content. cbn [length] in *. lia. }
    assert (Hkeep : status <> mahonia.NO_ROOM ->
      exists more prevRune',
        (let c := wordRune c in
         if (c =? space) && (prevRune =? space)
         then scanLoop record wordRune d fuel ds'
                (drop (Z.to_nat size) content) prevRune fed
         else
           if c <? 128
           then scanLoop record wordRune d fuel ds'
                  (drop (Z.to_nat size) content) c
                  (record fed (byte_of_rune c))
           else scanLoop record wordRune d fuel ds'
                  (drop (Z.to_nat size) content) c
                  (fold_left record (utf8_EncodeRune c) fed))
        = Some (Val (fed ++ more))
        /\ scanInv (fed ++ more) prevRune').
    { intros Hs. specialize (Hrest Hs). cbv zeta.
      pose proof (HwordRune c) as Hw. set (w := wordRune c) in *.
      destruct Hinv as [Hcol Hprev].
      destruct ((w =? space) && (prevRune =? space)) eqn:Hskip.
      - by apply IH.
      - destruct (Z.ltb_spec w 128) as [Hlow | Hhigh].
        + unfold record at 2. unfold byte_of_rune.
          rewrite Z.mod_small by lia.
          destruct (IH ds' (drop (Z.to_nat size) content) w (fed ++ [w]))
            as (more & prev' & Hrun & Hinv'); [done | |].
          { split.
            - apply collapsed_snoc; [done |].
              intros Hl ->. apply Hprev in Hl. subst prevRune.
              discriminate Hskip.
            - rewrite last_snoc. split; [by intros [=] | by intros ->]. }
          exists ([w] ++ more), prev'. by rewrite !app_assoc.
        + destruct (EncodeRune_no_space w) as [Hall Hne]; [lia |].
          replace (fold_left record (utf8_EncodeRune w) fed)
            with (fed ++ utf8_EncodeRune w).
          2:{ clear. generalize fed.
              induction (utf8_EncodeRune w) as [| x l IHl]; intros acc.
              - by rewrite app_nil_r.
              - cbn [fold_left]. rewrite <- IHl. unfold record.
                by rewrite <- app_assoc. }
          destruct (collapsed_app (utf8_EncodeRune w) fed Hcol Hall)
            as [Hcol' Hlast'].
          destruct (IH ds' (drop (Z.to_nat size) content) w
                      (fed ++ utf8_EncodeRune w))
            as (more & prev' & Hrun & Hinv'); [done | |].
          { split; [done |]. split.
            - intros Hl. by destruct (Hlast' Hne).
            - intros ->. unfold space in Hhigh. lia. }
          exists (utf8_EncodeRune w ++ more), prev'.
          by rewrite !app_assoc. }
    destruct status.
    + by apply Hkeep.
    + by apply Hkeep.
    + exists [], prevRune. by rewrite app_nil_r.
    + apply IH; [by apply Hrest | done].
Qed.

(** What the code guarantees of the stream given to the phrase scanner: it
    is produced for every document (with a decoder that makes progress,
    [length content] iterations are enough); it begins with a separator;
    up to the closing separator no two separators are adjacent; and the
    closing separator is added whatever comes before it. *)
Lemma fedBytes_shape (content : list byte) :
  exists body,
    fedBytes wordRune d (length content) content
      = Some (Val (space :: body ++ [space]))
    /\ collapsed (space :: body) = true.
Proof.
  unfold fedBytes, scanBytes.
  destruct (scanLoop_collapses (length content) (mahonia.start d) content
              space (record [] space))
    as (more & prev' & Hrun & Hinv & _); [done | by split |].
  rewrite Hrun. exists more. split; [reflexivity | exact Hinv].
Qed.

End ScanFacts.

(** C6, on the code: the closing separator is not collapsed.  For the
    empty document, with any decoder and any [wordRune], the scanner is
    given two separators; for ["Hello,  World!"] it is given
    [" hello world  "], which ends with two separators, because the ["!"]
    has already produced one. *)
Theorem closing_separator_not_collapsed :
  (forall wordRune d fuel,
     fedBytes wordRune d fuel [] = Some (Val [space; space]))
  /\ fedBytes wordRune_ascii decodeASCII 14 (bytes_of_string "Hello,  World!")
     = Some (Val (bytes_of_string " hello world  "))
  /\ bytes_of_string " hello world  " <> bytes_of_string " hello world ".
Proof.
  split; [| split].
  - intros wordRune d fuel. unfold fedBytes, scanBytes.
    by destruct fuel.
  - vm_compute. reflexivity.
  - vm_compute. discriminate.
Qed.

Lemma decodeASCII_progresses : progresses decodeASCII.
Proof.
  intros [] p Hp. destruct p as [| b p]; [done |]. cbn.
  destruct (127 <? b); cbn [length]; split; intros; lia.
Qed.


(** The recording scanner stands for any phrase scanner: the state
    [scanContent] leaves a scanner in is the one reached by giving it, one
    by one, the bytes recorded. *)
Lemma fold_left_record (l acc : list byte) :
  fold_left record l acc = acc ++ l.
Proof.
  revert acc. induction l as [| x l IH]; intros acc.
  - by rewrite app_nil_r.
  - cbn [fold_left]. rewrite IH. unfold record. by rewrite <- app_assoc.
Qed.

Lemma scanLoop_recorded {PS : Type} (scanByte : PS -> byte -> PS)
    (wordRune : Z -> Z) (d : mahonia.Decoder) (ps0 : PS) (fuel : nat) :
  forall ds content prevRune fed,
    scanLoop scanByte wordRune d fuel ds content prevRune
      (fold_left scanByte fed ps0)
    = afterBytes scanByte ps0
        <$> scanLoop record wordRune d fuel ds content prevRune fed.
Proof.
  induction fuel as [| fuel IH]; intros ds content prevRune fed.
  - by destruct content.
  - destruct content as [| b rest]; [reflexivity |].
    cbn [scanLoop].
    destruct (mahonia.step d ds (b :: rest)) as [[[c size] status] ds'].
    destruct ((size <? 0) || (Z.of_nat (length (b :: rest)) <? size));
      [reflexivity |].
    assert (Hsnoc : forall x,
              scanByte (fold_left scanByte fed ps0) x
              = fold_left scanByte (record fed x) ps0).
    { intros x. unfold record. by rewrite fold_left_app. }
    assert (Happ : forall l,
              fold_left scanByte l (fold_left scanByte fed ps0)
              = fold_left scanByte (fold_left record l fed) ps0).
    { intros l. by rewrite fold_left_record, fold_left_app. }
    destruct status; try reflexivity; try apply IH;
      destruct ((wordRune c =? space) && (prevRune =? space));
      try apply IH;
      destruct (wordRune c <? 128);
      rewrite ?Hsnoc, ?Happ; apply IH.
Qed.

Lemma scanBytes_recorded {PS : Type} (scanByte : PS -> byte -> PS)
    (wordRune : Z -> Z) (d : mahonia.Decoder) (ps0 : PS) (fuel : nat)
    (content : list byte) :
  scanBytes scanByte wordRune d fuel ps0 content
  = afterBytes scanByte ps0 <$> fedBytes wordRune d fuel content.
Proof.
  unfold fedBytes, scanBytes.
  change (scanByte ps0 space) with (fold_left scanByte (record [] space) ps0).
  rewrite scanLoop_recorded.
  destruct (scanLoop record wordRune d fuel (mahonia.start d) content space
              (record [] space)) as [[out | msg] |]; try reflexivity.
  cbn. unfold record. by rewrite fold_left_app.
Qed.

(** * Further properties *)

(** ** hardValidationTransport, beyond the checks *)

(** The pool [fold_left AddCert] builds has every certificate added to it,
    by raw encoding, holds no encoding twice, and holds nothing else. *)
Lemma AddCert_pool (l : list x509.Certificate) :
  forall p : x509.CertPool,
    NoDup (x509.Raw <$> p) ->
    let q := fold_left x509.AddCert l p in
    NoDup (x509.Raw <$> q)
    /\ (forall c, c ∈ p \/ c ∈ l -> x509.Raw c ∈ x509.Raw <$> q)
    /\ (forall d, d ∈ q -> d ∈ p \/ d ∈ l).
Proof.
  induction l as [| c l IH]; intros p Hnd; cbn [fold_left].
  - split; [done |]. split.
    + intros c [Hc | Hc]; [by apply list_elem_of_fmap_2 | by inversion Hc].
    + intros d Hd. by left.
  - assert (Hadd : NoDup (x509.Raw <$> x509.AddCert p c)
                   /\ x509.Raw c ∈ x509.Raw <$> x509.AddCert p c
                   /\ (forall d, d ∈ p -> d ∈ x509.AddCert p c)
                   /\ (forall d, d ∈ x509.AddCert p c -> d ∈ p \/ d = c)).
    { unfold x509.AddCert.
      destruct (existsb _ p) eqn:Hex.
      - apply existsb_exists in Hex as (d & Hd & Heq).
        apply bool_decide_eq_true in Heq.
        split; [done |]. split.
        + rewrite <- Heq. apply list_elem_of_fmap_2. by apply list_elem_of_In.
        + split; [done | by left].
      - split.
        + rewrite fmap_app. apply NoDup_app. split; [done |].
          split; [| apply NoDup_singleton].
          intros r Hr Hr'. apply list_elem_of_singleton in Hr'. subst r.
          apply list_elem_of_fmap in Hr as (d & Heq & Hd).
          assert (existsb
                    (fun d => bool_decide (x509.Raw d = x509.Raw c)) p
                  = true) as Hex'; [| congruence].
          apply existsb_exists. exists d. split.
          * by apply list_elem_of_In.
          * by apply bool_decide_eq_true.
        + split.
          * apply list_elem_of_fmap_2, elem_of_app. right.
            by apply list_elem_of_singleton.
          * split.
            -- intros d Hd. apply elem_of_app. by left.
            -- intros d Hd. apply elem_of_app in Hd as [Hd | Hd];
                 [by left | right; by apply list_elem_of_singleton]. }
    destruct Hadd as (Hnd' & Hc & Hkeep & Hfrom).
    destruct (IH (x509.AddCert p c) Hnd') as (H1 & H2 & H3).
    split; [exact H1 |]. split.
    + intros c' [Hc' | Hc'].
      * apply H2. left. by apply Hkeep.
      * apply elem_of_cons in Hc' as [-> | Hc'].
        -- destruct (list_elem_of_fmap_1 _ _ _ Hc) as (d & Heq & Hd).
           rewrite Heq. apply H2. by left.
        -- apply H2. by right.
    + intros d Hd. destruct (H3 d Hd) as [Hd' | Hd'].
      * destruct (Hfrom d Hd') as [? | ->]; [by left | right; by left].
      * right. by right.
Qed.

(** X1: building the transport from a non-empty chain verifies the first
    certificate twice (default roots with the whole chain as
    intermediates, then the chain itself as the only roots, both for the
    server name), records the two outcomes, and pools every certificate of
    the chain once by raw encoding and nothing else; an empty chain panics
    before any verification. *)
Theorem construction_records V rt0 serverName c0 others :
  (exists t,
     newHardValidationTransport V rt0 serverName (c0 :: others)
     = ([EvVerify c0 {| x509.DNSName := serverName;
                        x509.Intermediates := Some (originalCertPool t);
                        x509.Roots := None |};
         EvVerify c0 {| x509.DNSName := serverName;
                        x509.Intermediates := None;
                        x509.Roots := Some (originalCertPool t) |}],
        Val t)
     /\ rt t = rt0
     /\ originalCertificates t = c0 :: others
     /\ originalServerName t = serverName
     /\ expectedErrDefault t
        = V c0 {| x509.DNSName := serverName;
                  x509.Intermediates := Some (originalCertPool t);
                  x509.Roots := None |}
     /\ expectedErrOriginal t
        = V c0 {| x509.DNSName := serverName;
                  x509.Intermediates := None;
                  x509.Roots := Some (originalCertPool t) |}
     /\ NoDup (x509.Raw <$> originalCertPool t)
     /\ (forall c, c ∈ c0 :: others ->
                   x509.Raw c ∈ x509.Raw <$> originalCertPool t)
     /\ (forall d, d ∈ originalCertPool t -> d ∈ c0 :: others))
  /\ newHardValidationTransport V rt0 serverName []
     = ([], Panic "index out of range").
Proof.
  split; [| reflexivity].
  set (pool := fold_left x509.AddCert (c0 :: others) x509.NewCertPool).
  exists {| rt := rt0;
            originalCertificates := c0 :: others;
            originalServerName := serverName;
            originalCertPool := pool;
            expectedErrDefault :=
              V c0 {| x509.DNSName := serverName;
                      x509.Intermediates := Some pool;
                      x509.Roots := None |};
            expectedErrOriginal :=
              V c0 {| x509.DNSName := serverName;
                      x509.Intermediates := None;
                      x509.Roots := Some pool |} |}.
  split; [reflexivity |]. cbn [rt originalCertificates
    originalServerName expectedErrDefault expectedErrOriginal
    originalCertPool].
  repeat (split; [reflexivity |]).
  destruct (AddCert_pool (c0 :: others) x509.NewCertPool) as (H1 & H2 & H3);
    [apply NoDup_nil_2 |].
  split; [exact H1 |]. split.
  - intros c Hc. apply H2. by right.
  - intros d Hd. destruct (H3 d Hd) as [Hn | Hl]; [inversion Hn | exact Hl].
Qed.

Section HardValidationMore.

Variable V : x509.Certificate -> x509.VerifyOptions -> error.

Ltac start Hrt :=
  unfold RoundTrip; cbv zeta; rewrite Hrt; cbn -[passes].

(** X2: an error of the wrapped transport is returned as it is, with the
    response the transport gave, and no certificate is looked at. *)
Theorem transport_error_propagated t req resp err :
  rt t (upgradeScheme req) = (resp, Some err) ->
  RoundTrip V t req = ([EvRoundTrip (upgradeScheme req)],
                       Val (resp, Some err)).
Proof. intros Hrt. by start Hrt. Qed.

(** X3: a response that carries no TLS state, or whose peer chain is
    empty, or a nil response returned without error, makes the round trip
    panic right after the wrapped transport's call, before any
    verification. *)
Theorem no_peer_certificate_panics t req oresp :
  rt t (upgradeScheme req) = (oresp, None) ->
  oresp = None
  \/ (exists resp, oresp = Some resp /\
        (http.TLS resp = None
         \/ exists cs, http.TLS resp = Some cs
                       /\ tls.PeerCertificates cs = [])) ->
  exists msg,
    RoundTrip V t req = ([EvRoundTrip (upgradeScheme req)], Panic msg).
Proof.
  intros Hrt [-> | (resp & -> & [Htls | (cs & Htls & Hchain)])];
    start Hrt.
  - by eexists.
  - rewrite Htls. by eexists.
  - rewrite Htls. cbn. rewrite Hchain. by eexists.
Qed.

(** X4: the round trip calls the wrapped transport once, first, with the
    request upgraded to https, and after it makes nothing but certificate
    verifications: at most four, and at most two when the request's host
    is the original server name. *)
Theorem verifications_bounded t req :
  exists verifications,
    events (RoundTrip V t req)
    = EvRoundTrip (upgradeScheme req) :: verifications
    /\ Forall (fun e => exists c opts, e = EvVerify c opts) verifications
    /\ (length verifications <= 4)%nat
    /\ (http.Host req = originalServerName t ->
        (length verifications <= 2)%nat).
Proof.
  unfold events, RoundTrip. cbv zeta.
  destruct (rt t (upgradeScheme req)) as [oresp [err |]] eqn:Hrt;
    cbn -[passes].
  { exists []. cbn. repeat split; (done || lia). }
  destruct oresp as [resp |]; cbn -[passes];
    [| exists []; cbn; repeat split; (done || lia)].
  destruct (http.TLS resp) as [cs |]; cbn -[passes];
    [| exists []; cbn; repeat split; (done || lia)].
  destruct (tls.PeerCertificates cs) as [| leaf rest]; cbn -[passes];
    [exists []; cbn; repeat split; (done || lia) |].
  destruct (originalCertificates t) as [| orig origRest]; cbn -[passes];
    [exists []; cbn; repeat split; (done || lia) |].
  destruct (bytes_Equal _ _); cbn -[passes];
    [exists []; cbn; repeat split; (done || lia) |].
  rewrite Host_upgradeScheme.
  destruct (passes _ (expectedErrDefault t)); cbn -[passes];
    [eexists; split; [reflexivity |]; cbn;
     repeat split; try lia; repeat constructor; by eexists; eexists |].
  destruct (passes _ (expectedErrOriginal t)); cbn -[passes];
    [eexists; split; [reflexivity |]; cbn;
     repeat split; try lia; repeat constructor; by eexists; eexists |].
  assert (Hclose : (closeBody resp).1 = []).
  { unfold closeBody. by destruct (http.Body' resp). }
  assert (Hreject :
    (bind (closeBody resp)
       (fun r' => ret (Some r', Some errCouldNotVerify))).1 = []).
  { unfold closeBody. by destruct (http.Body' resp). }
  case_bool_decide as Hhost; cbn -[passes].
  - rewrite Hreject. eexists. split; [reflexivity |]. cbn.
    repeat split; try lia; repeat constructor; by eexists; eexists.
  - destruct (passes _ (expectedErrDefault t)); cbn -[passes];
      [eexists; split; [reflexivity |]; cbn;
       repeat split; try lia; try done;
       repeat constructor; by eexists; eexists |].
    destruct (passes _ (expectedErrOriginal t)); cbn -[passes];
      [eexists; split; [reflexivity |]; cbn;
       repeat split; try lia; try done;
       repeat constructor; by eexists; eexists |].
    rewrite Hreject. eexists. split; [reflexivity |]. cbn.
    repeat split; try lia; try done;
      repeat constructor; by eexists; eexists.
Qed.

End HardValidationMore.

Section HardValidationDecision.

Variable V : x509.Certificate -> x509.VerifyOptions -> error.

(** X5: once the wrapped transport has answered with a response that has a
    peer chain, the round trip returns that response without error exactly
    when its leaf has the original key or one of the checks passes: the
    default-roots or the original-pool verification for the request's
    host, or, when that host is not the original server name, one of the
    same two verifications for the original server name. *)
Theorem accepted_iff_a_check_passes
    t req resp cs leaf rest orig origRest :
  rt t (upgradeScheme req) = (Some resp, None) ->
  http.TLS resp = Some cs ->
  tls.PeerCertificates cs = leaf :: rest ->
  originalCertificates t = orig :: origRest ->
  result (RoundTrip V t req) = Val (Some resp, None) <->
  x509.RawSubjectPublicKeyInfo leaf = x509.RawSubjectPublicKeyInfo orig
  \/ checkPasses V leaf rest (http.Host req) None (expectedErrDefault t)
     = true
  \/ checkPasses V leaf rest (http.Host req) (Some (originalCertPool t))
       (expectedErrOriginal t) = true
  \/ (http.Host req <> originalServerName t
      /\ (checkPasses V leaf rest (originalServerName t) None
            (expectedErrDefault t) = true
          \/ checkPasses V leaf rest (originalServerName t)
               (Some (originalCertPool t)) (expectedErrOriginal t)
             = true)).
Proof.
  intros Hrt Htls Hchain Horig.
  assert (Hreject :
    (bind (closeBody resp)
       (fun r' => ret (Some r', Some errCouldNotVerify))).2
    <> Val (Some resp, None)).
  { unfold closeBody. by destruct (http.Body' resp). }
  unfold checkPasses, result, RoundTrip. cbv zeta. rewrite Hrt.
  cbn -[passes]. rewrite Htls. cbn -[passes]. rewrite Hchain, Horig.
  cbn -[passes]. unfold bytes_Equal. rewrite drop_0, Host_upgradeScheme.
  case_bool_decide as Hkey; cbn -[passes]; [by split; [left |] |].
  destruct (passes _ (expectedErrDefault t)) eqn:H2; cbn -[passes];
    [by split; [right; left |] |].
  destruct (passes _ (expectedErrOriginal t)) eqn:H3; cbn -[passes];
    [by split; [right; right; left |] |].
  case_bool_decide as Hhost; cbn -[passes].
  - split; [intros H; contradiction |].
    intros [? | [? | [? | [? _]]]]; done.
  - clear H2 H3.
    destruct (passes _ (expectedErrDefault t)) eqn:H4; cbn -[passes];
      [by split; [right; right; right; split; [| left] |] |].
    destruct (passes _ (expectedErrOriginal t)) eqn:H5; cbn -[passes];
      [by split; [right; right; right; split; [| right] |] |].
    split; [intros H; contradiction |].
    intros [? | [? | [? | [_ [? | ?]]]]]; done.
Qed.

(** X6: the category compared is the Go type of the error and nothing
    more: a new leaf (with another key) whose default-roots verification
    fails is accepted at that check whenever the original's failed with an
    error of the same type, whatever the reason or host inside the two
    errors; so a leaf that has expired passes for an original whose name
    did not match. *)
Theorem same_error_type_accepted
    t req resp cs leaf rest orig origRest e1 e2 :
  rt t (upgradeScheme req) = (Some resp, None) ->
  http.TLS resp = Some cs ->
  tls.PeerCertificates cs = leaf :: rest ->
  originalCertificates t = orig :: origRest ->
  x509.RawSubjectPublicKeyInfo leaf <> x509.RawSubjectPublicKeyInfo orig ->
  expectedErrDefault t = Some e1 ->
  V leaf (defaultCheckOptions (leaf :: rest) req) = Some e2 ->
  typeOf e1 = typeOf e2 ->
  acceptsAtDefaultCheck V t req resp leaf (leaf :: rest)
  /\ typeOf (CertificateInvalidError Expired)
     = typeOf (CertificateInvalidError NameMismatch).
Proof.
  intros Hrt Htls Hchain Horig Hkey He1 He2 Htype.
  split; [| reflexivity].
  unfold acceptsAtDefaultCheck, RoundTrip. cbv zeta. rewrite Hrt.
  cbn -[passes]. rewrite Htls. cbn -[passes]. rewrite Hchain, Horig.
  cbn -[passes]. unfold bytes_Equal.
  rewrite bool_decide_eq_false_2 by done. cbn -[passes].
  unfold defaultCheckOptions in *. rewrite Host_upgradeScheme.
  cbn [drop] in He2. rewrite He2, He1.
  assert (Hp : passes (Some e2) (Some e1) = true).
  { apply passes_spec. right. cbn. congruence. }
  by rewrite Hp.
Qed.

End HardValidationDecision.

Lemma transport_error_propagated_witness :
  let req := getRequest "http" "example.com" "/" in
  let err := otherError "*net.OpError" "connection refused" in
  RoundTrip onlyOriginalVerifies (anchored (fails err) None None) req
  = ([EvRoundTrip (getRequest "https" "example.com" "/")],
     Val (None, Some err)).
Proof.
  apply (transport_error_propagated onlyOriginalVerifies
           (anchored (fails (otherError "*net.OpError" "connection refused"))
              None None)
           (getRequest "http" "example.com" "/")).
  reflexivity.
Defined.

Lemma no_peer_certificate_panics_witness :
  let resp := tlsResponse [] in
  let req := getRequest "https" "example.com" "/" in
  exists msg,
    RoundTrip onlyOriginalVerifies (pinned onlyOriginalVerifies resp) req
    = ([EvRoundTrip (upgradeScheme req)], Panic msg).
Proof.
  apply (no_peer_certificate_panics onlyOriginalVerifies
           (pinned onlyOriginalVerifies (tlsResponse []))
           (getRequest "https" "example.com" "/")
           (Some (tlsResponse []))).
  - reflexivity.
  - right. exists (tlsResponse []). split; [reflexivity |].
    right. eexists. split; reflexivity.
Defined.

Lemma accepted_iff_a_check_passes_witness :
  let resp := tlsResponse [otherCert] in
  let t := pinned selfSignedOriginal resp in
  let req := getRequest "https" "other.example" "/" in
  result (RoundTrip selfSignedOriginal t req) = Val (Some resp, None) <->
  x509.RawSubjectPublicKeyInfo otherCert
  = x509.RawSubjectPublicKeyInfo originalCert
  \/ checkPasses selfSignedOriginal otherCert [] (http.Host req) None
       (expectedErrDefault t) = true
  \/ checkPasses selfSignedOriginal otherCert [] (http.Host req)
       (Some (originalCertPool t)) (expectedErrOriginal t) = true
  \/ (http.Host req <> originalServerName t
      /\ (checkPasses selfSignedOriginal otherCert [] (originalServerName t)
            None (expectedErrDefault t) = true
          \/ checkPasses selfSignedOriginal otherCert []
               (originalServerName t) (Some (originalCertPool t))
               (expectedErrOriginal t) = true)).
Proof.
  apply (accepted_iff_a_check_passes selfSignedOriginal
           (pinned selfSignedOriginal (tlsResponse [otherCert]))
           (getRequest "https" "other.example" "/")
           (tlsResponse [otherCert])
           {| tls.PeerCertificates := [otherCert] |}
           otherCert [] originalCert []);
    reflexivity.
Defined.

Lemma same_error_type_accepted_witness :
  let resp := tlsResponse [otherCert] in
  let t := anchored (answers resp)
             (Some (CertificateInvalidError NameMismatch)) None in
  let req := getRequest "https" "example.com" "/" in
  acceptsAtDefaultCheck allExpired t req resp otherCert [otherCert]
  /\ typeOf (CertificateInvalidError Expired)
     = typeOf (CertificateInvalidError NameMismatch).
Proof.
  apply (same_error_type_accepted allExpired
           (anchored (answers (tlsResponse [otherCert]))
              (Some (CertificateInvalidError NameMismatch)) None)
           (getRequest "https" "example.com" "/")
           (tlsResponse [otherCert])
           {| tls.PeerCertificates := [otherCert] |}
           otherCert [] originalCert []
           (CertificateInvalidError NameMismatch)
           (CertificateInvalidError Expired));
    [reflexivity | reflexivity | reflexivity | reflexivity | discriminate
    | reflexivity | reflexivity | reflexivity].
Defined.

(** ** simpleTransport, the other paths *)

Lemma events_bind {A B} (m : M A) (k : A -> M B) (a : A) :
  result m = Val a -> events (bind m k) = events m ++ events (k a).
Proof. unfold result, events, bind. by intros ->. Qed.

(** What a successful [readHead] has gone through. *)
Lemma readHead_inv (L : NetLib) (req : http.Request) (h : Head) :
  result (readHead L req) = Val (inl h) ->
  http.Method req = "GET"
  /\ url.Scheme (http.URL req) = "http"
  /\ dialer_Dial L "tcp" (dialAddress L req) = inl (hConn h)
  /\ net.writeErr (hConn h) = None
  /\ exists line rest,
       ReadLine (net.incoming (hConn h)) (net.final (hConn h))
       = (line, None, rest)
       /\ parseFirstLine line = inl (hProto h, hStatus h, hStatusCode h)
       /\ http_ParseHTTPVersion L (hProto h)
          = (hProtoMajor h, hProtoMinor h, true)
       /\ ReadMIMEHeader L rest (net.final (hConn h))
          = (hHeader h, None, hRest h).
Proof.
  unfold readHead.
  case_bool_decide as Hm; [| discriminate]. simpl negb. cbv iota.
  case_bool_decide as Hs; [| discriminate]. simpl negb. cbv iota zeta.
  destruct (dialer_Dial L "tcp" (dialAddress L req)) as [conn | e] eqn:Hd;
    [| discriminate].
  destruct (net.writeErr conn) as [e |] eqn:Hw; [discriminate |].
  destruct (ReadLine (net.incoming conn) (net.final conn))
    as [[line [e |]] rest] eqn:Hl; [discriminate |].
  destruct (parseFirstLine line) as [[[Proto Status] StatusCode] | e]
    eqn:Hp; [| discriminate].
  destruct (http_ParseHTTPVersion L Proto) as [[maj min] ok] eqn:Hv.
  destruct ok; [| discriminate]. simpl negb. cbv iota.
  destruct (ReadMIMEHeader L rest (net.final conn)) as [[hdr [e |]] br]
    eqn:Hh; [discriminate |].
  intros [= <-]. cbn. repeat split; try done.
  exists line, rest. by rewrite Hl, Hv, Hh.
Qed.

(** A response is returned only through [finish]. *)
Lemma RoundTrip_inv (L : NetLib) (req : http.Request) resp err :
  result (simpleTransport_RoundTrip L req) = Val (Some resp, err) ->
  exists h, result (readHead L req) = Val (inl h)
            /\ finish req h = (Some resp, err).
Proof.
  unfold simpleTransport_RoundTrip, result, bind.
  destruct (readHead L req) as [l [[h | e] | msg]]; cbn; try discriminate.
  intros [= Hf]. by exists h.
Qed.

Lemma digitVal_range (c : ascii) (d : Z) :
  digitVal c = Some d -> 0 <= d <= 9.
Proof.
  unfold digitVal.
  destruct (Z.leb_spec 48 (byte_of_ascii c)); [| discriminate].
  destruct (Z.leb_spec (byte_of_ascii c) 57); [| discriminate].
  intros [= <-]. lia.
Qed.

Lemma parseDigits_bound (s : string) :
  forall acc n, 0 <= acc -> parseDigits s acc = Some n ->
    acc * 10 ^ Z.of_nat (String.length s) <= n
    < (acc + 1) * 10 ^ Z.of_nat (String.length s).
Proof.
  induction s as [| c s IH]; intros acc n Hacc Hp.
  - cbn in *. injection Hp as <-. lia.
  - cbn [parseDigits String.length] in *.
    destruct (digitVal c) as [d |] eqn:Hd; [| discriminate].
    apply digitVal_range in Hd. apply IH in Hp; [| lia].
    rewrite Nat2Z.inj_succ, Z.pow_succ_r by lia. nia.
Qed.

(** A token of three bytes that [strconv.Atoi] accepts is a number from
    -99 to 999. *)
Lemma Atoi_three (tok : string) (n : Z) :
  String.length tok = 3%nat -> strconv_Atoi tok = inl n -> -99 <= n <= 999.
Proof.
  intros Hlen. unfold strconv_Atoi, parseInt10.
  destruct tok as [| c rest]; [discriminate |].
  cbn [String.length] in Hlen.
  destruct (Ascii.eqb c "+" || Ascii.eqb c "-") eqn:Hsign.
  - destruct rest as [| c' rest']; [discriminate |].
    destruct (parseDigits (String c' rest') 0) as [un |] eqn:Hd;
      [| discriminate].
    apply parseDigits_bound in Hd; [| lia].
    replace (String.length (String c' rest')) with 2%nat in Hd
      by (cbn [String.length] in *; lia).
    change (10 ^ Z.of_nat 2) with 100 in Hd.
    repeat match goal with
           | |- context [if ?b then _ else _] => destruct b
           end; intros [= <-]; lia.
  - destruct (parseDigits (String c rest) 0) as [un |] eqn:Hd;
      [| discriminate].
    apply parseDigits_bound in Hd; [| lia].
    replace (String.length (String c rest)) with 3%nat in Hd
      by (cbn [String.length]; lia).
    change (10 ^ Z.of_nat 3) with 1000 in Hd.
    repeat match goal with
           | |- context [if ?b then _ else _] => destruct b
           end; intros [= <-]; lia.
Qed.

Lemma parseFirstLine_range (line Proto Status : string) (n : Z) :
  parseFirstLine line = inl (Proto, Status, n) -> 0 <= n <= 999.
Proof.
  destruct (Z.eq_dec (strings_IndexByte line " ") (-1)) as [Hi | Hi].
  - unfold parseFirstLine. rewrite Hi. discriminate.
  - rewrite (parseFirstLine_token line Hi). cbv zeta.
    set (tok := firstToken _).
    unfold len. destruct (Z.eqb_spec (Z.of_nat (String.length tok)) 3) as
      [H3 | H3]; [| discriminate]. simpl negb. cbv iota.
    destruct (strconv_Atoi tok) as [m | e] eqn:Hatoi; [| discriminate].
    destruct (Z.ltb_spec m 0); [discriminate |].
    intros [= _ _ <-]. apply Atoi_three in Hatoi; lia.
Qed.

Section SimpleTransportMore.

Variable L : NetLib.

(** X7: a method other than GET, or a scheme other than http, is refused
    with an error that names it, and nothing is dialed. *)
Theorem unsupported_request_no_network req :
  http.Method req <> "GET" \/ url.Scheme (http.URL req) <> "http" ->
  simpleTransport_RoundTrip L req
  = ([], Val (None,
       Some (if bool_decide (http.Method req = "GET")
             then fmt_Errorf
               "URL scheme not supported by simpleTransport (expected http, got %s)"
               [url.Scheme (http.URL req)]
             else fmt_Errorf
               "request method not supported by simpleTransport (expected GET, got %s)"
               [http.Method req]))).
Proof.
  intros H. unfold simpleTransport_RoundTrip, readHead.
  case_bool_decide as Hm; simpl negb; cbv iota; [| reflexivity].
  destruct H as [H | H]; [done |].
  by rewrite bool_decide_eq_false_2.
Qed.

(** X8: when the dial fails, the error names the address dialed and the
    request is never written; when writing the request fails, the error
    is returned after the one dial and the one write. *)
Theorem connection_failure req :
  http.Method req = "GET" ->
  url.Scheme (http.URL req) = "http" ->
  (forall err,
     dialer_Dial L "tcp" (dialAddress L req) = inr err ->
     simpleTransport_RoundTrip L req
     = ([EvDial "tcp" (dialAddress L req)],
        Val (None, Some (fmt_Errorf "error connecting to %s: %v"
                           [dialAddress L req; Error L err]))))
  /\ (forall conn err,
        dialer_Dial L "tcp" (dialAddress L req) = inl conn ->
        net.writeErr conn = Some err ->
        simpleTransport_RoundTrip L req
        = ([EvDial "tcp" (dialAddress L req); EvWrite req],
           Val (None, Some (fmt_Errorf "error sending request for %v: %v"
                              [URL_String L (http.URL req); Error L err])))).
Proof.
  intros Hm Hs. unfold simpleTransport_RoundTrip, readHead.
  rewrite !bool_decide_eq_true_2 by done. simpl negb. cbv iota zeta.
  split.
  - intros err ->. reflexivity.
  - intros conn err -> ->. reflexivity.
Qed.

(** X9: a connection that ends before sending anything gives the error
    "unexpected EOF"; a connection that breaks with another error before
    sending anything gives that error. *)
Theorem empty_connection req conn :
  http.Method req = "GET" ->
  url.Scheme (http.URL req) = "http" ->
  dialer_Dial L "tcp" (dialAddress L req) = inl conn ->
  net.writeErr conn = None ->
  net.incoming conn = [] ->
  simpleTransport_RoundTrip L req
  = ([EvDial "tcp" (dialAddress L req); EvWrite req],
     Val (None, Some (if bool_decide (net.final conn = io_EOF)
                      then io_ErrUnexpectedEOF else net.final conn))).
Proof.
  intros Hm Hs Hd Hw Hin. unfold simpleTransport_RoundTrip, readHead.
  rewrite !bool_decide_eq_true_2 by done. simpl negb. cbv iota zeta.
  rewrite Hd, Hw, Hin. reflexivity.
Qed.

(** X10: a first line without a space is a malformed response; a first
    line whose status code is accepted but whose protocol version is not
    is a malformed version, named in the error. *)
Theorem malformed_first_line req conn line rest :
  http.Method req = "GET" ->
  url.Scheme (http.URL req) = "http" ->
  dialer_Dial L "tcp" (dialAddress L req) = inl conn ->
  net.writeErr conn = None ->
  ReadLine (net.incoming conn) (net.final conn) = (line, None, rest) ->
  (strings_IndexByte line " " = -1 ->
   result (simpleTransport_RoundTrip L req)
   = Val (None, Some (fmt_Errorf "malformed HTTP response: %q" [line])))
  /\ (forall Proto Status StatusCode major minor,
        parseFirstLine line = inl (Proto, Status, StatusCode) ->
        http_ParseHTTPVersion L Proto = (major, minor, false) ->
        result (simpleTransport_RoundTrip L req)
        = Val (None, Some (fmt_Errorf "malformed HTTP version: %q"
                             [Proto]))).
Proof.
  intros Hm Hs Hd Hw Hl.
  pose proof (readHead_first_line L req conn line rest Hm Hs Hd Hw Hl)
    as Hh.
  unfold simpleTransport_RoundTrip. rewrite Hh. split.
  - intros Hi. unfold parseFirstLine. rewrite Hi. reflexivity.
  - intros Proto Status StatusCode major minor -> ->. reflexivity.
Qed.

(** X11: an error met while reading the header block is returned (the end
    of the stream as "unexpected EOF"), with no response. *)
Theorem header_block_error req conn line rest Proto Status StatusCode
    major minor hdr err br :
  http.Method req = "GET" ->
  url.Scheme (http.URL req) = "http" ->
  dialer_Dial L "tcp" (dialAddress L req) = inl conn ->
  net.writeErr conn = None ->
  ReadLine (net.incoming conn) (net.final conn) = (line, None, rest) ->
  parseFirstLine line = inl (Proto, Status, StatusCode) ->
  http_ParseHTTPVersion L Proto = (major, minor, true) ->
  ReadMIMEHeader L rest (net.final conn) = (hdr, Some err, br) ->
  result (simpleTransport_RoundTrip L req)
  = Val (None, Some (if bool_decide (err = io_EOF)
                     then io_ErrUnexpectedEOF else err)).
Proof.
  intros Hm Hs Hd Hw Hl Hp Hv Hh.
  unfold simpleTransport_RoundTrip.
  rewrite (readHead_first_line L req conn line rest Hm Hs Hd Hw Hl).
  by rewrite Hp, Hv, Hh.
Qed.

(** X12: the status code of every response returned is a number from 0 to
    999. *)
Theorem status_code_range req resp err :
  result (simpleTransport_RoundTrip L req) = Val (Some resp, err) ->
  0 <= http.StatusCode resp <= 999.
Proof.
  intros HR.
  destruct (RoundTrip_inv L req resp err HR) as (h & Hh & Hf).
  rewrite (returned_StatusCode L req h resp err Hh HR).
  destruct (readHead_inv L req h Hh)
    as (_ & _ & _ & _ & line & rest & _ & Hp & _).
  by eapply parseFirstLine_range.
Qed.

(** X13: of the headers read, Content-Length and Trailer are removed from
    the response returned and every other header is kept; the response
    comes without error, carries the request, and has no TLS state. *)
Theorem length_headers_removed req h resp err :
  result (readHead L req) = Val (inl h) ->
  result (simpleTransport_RoundTrip L req) = Val (Some resp, err) ->
  http.Header' resp !! "Content-Length" = None
  /\ http.Header' resp !! "Trailer" = None
  /\ (forall key, key <> "Content-Length" -> key <> "Trailer" ->
        http.Header' resp !! key = hHeader h !! key)
  /\ err = None
  /\ http.Request' resp = Some req
  /\ http.TLS resp = None.
Proof.
  intros Hh. rewrite (RoundTrip_finish L req h Hh). unfold finish.
  cbv zeta. destruct (if negb _ then _ else _) as [n | e]; [| discriminate].
  intros [= <- <-]. cbn. unfold http.Del. split; [| split; [| split]].
  - rewrite lookup_delete_ne by done. apply lookup_delete_eq.
  - apply lookup_delete_eq.
  - intros key H1 H2. by rewrite !lookup_delete_ne.
  - done.
Qed.

(** X14: a Content-Length that is present but is not a base-10 integer of
    64 bits makes the round trip fail with an error that quotes it. *)
Theorem invalid_Content_Length req h e :
  result (readHead L req) = Val (inl h) ->
  http.Get (hHeader h) "Content-Length" <> "" ->
  strconv_ParseInt (http.Get (hHeader h) "Content-Length") 64 = inr e ->
  result (simpleTransport_RoundTrip L req)
  = Val (None, Some (fmt_Errorf "invalid Content-Length: %q"
                       [http.Get (hHeader h) "Content-Length"])).
Proof.
  intros Hh Hne Hp. rewrite (RoundTrip_finish L req h Hh). unfold finish.
  cbv zeta. rewrite bool_decide_eq_false_2 by done. simpl negb. cbv iota.
  by rewrite Hp.
Qed.

(** X15: a round trip dials at most once and writes the request at most
    once, after the dial, and does nothing else on the network. *)
Theorem network_events req :
  events (simpleTransport_RoundTrip L req) = []
  \/ events (simpleTransport_RoundTrip L req)
     = [EvDial "tcp" (dialAddress L req)]
  \/ events (simpleTransport_RoundTrip L req)
     = [EvDial "tcp" (dialAddress L req); EvWrite req].
Proof.
  unfold simpleTransport_RoundTrip, readHead.
  case_bool_decide as Hm; simpl negb; cbv iota; [| by left].
  case_bool_decide as Hs; simpl negb; cbv iota zeta; [| by left].
  destruct (dialer_Dial L "tcp" (dialAddress L req)) as [conn | e];
    [| right; by left].
  right. right.
  destruct (net.writeErr conn) as [e |]; [reflexivity |].
  destruct (ReadLine (net.incoming conn) (net.final conn))
    as [[line [e |]] rest]; [reflexivity |].
  destruct (parseFirstLine line) as [[[Proto Status] StatusCode] | e];
    [| reflexivity].
  destruct (http_ParseHTTPVersion L Proto) as [[maj min] ok].
  destruct ok; [| reflexivity]. simpl negb. cbv iota.
  destruct (ReadMIMEHeader L rest (net.final conn)) as [[hdr [e |]] br];
    reflexivity.
Qed.

End SimpleTransportMore.

Lemma IndexByte_append (p y : string) (c : ascii) :
  strings_IndexByte p c = -1 ->
  strings_IndexByte (p +:+ String c y) c = len p.
Proof.
  unfold len. induction p as [| a p IH]; intros Hp.
  - change ("" +:+ String c y) with (String c y).
    cbn [strings_IndexByte]. by rewrite Ascii.eqb_refl.
  - change (String a p +:+ String c y) with (String a (p +:+ String c y)).
    cbn [strings_IndexByte String.length] in *.
    destruct (Ascii.eqb a c); [discriminate |].
    pose proof (IndexByte_range p c) as Hr.
    destruct (Z.eqb_spec (strings_IndexByte p c) (-1)) as [E | E];
      [| lia].
    rewrite (IH E).
    destruct (Z.eqb_spec (Z.of_nat (String.length p)) (-1)); lia.
Qed.

Lemma sliceTo_append (p y : string) : sliceTo (p +:+ y) (len p) = p.
Proof.
  unfold sliceTo, len. rewrite Nat2Z.id.
  induction p as [| a p IH].
  - change ("" +:+ y) with y. by destruct y.
  - change (String a p +:+ y) with (String a (p +:+ y)).
    cbn [String.length str_take]. by rewrite IH.
Qed.

Lemma sliceOff_append (p y : string) (c : ascii) :
  sliceOff (p +:+ String c y) (len p + 1) = y.
Proof.
  unfold sliceOff, len.
  replace (Z.to_nat (Z.of_nat (String.length p) + 1))
    with (S (String.length p)) by lia.
  induction p as [| a p IH]; [reflexivity |].
  change (String a p +:+ String c y) with (String a (p +:+ String c y)).
  cbn [String.length str_drop]. exact IH.
Qed.

Lemma TrimLeft_spaces (k : nat) (rest : string) :
  strings_TrimLeft_space (spaces k +:+ rest) = strings_TrimLeft_space rest.
Proof.
  induction k as [| k IH]; [reflexivity |].
  change (spaces (S k) +:+ rest) with (String " " (spaces k +:+ rest)).
  cbn [strings_TrimLeft_space]. exact IH.
Qed.

(** X16: the spaces between the protocol version and the status code do
    not count: a first line with any number of extra spaces there is read
    as the line with one. *)
Theorem extra_spaces_ignored (proto rest : string) (k : nat) :
  strings_IndexByte proto " " = -1 ->
  parseFirstLine (proto +:+ " " +:+ spaces k +:+ rest)
  = parseFirstLine (proto +:+ " " +:+ rest).
Proof.
  intros Hp. unfold parseFirstLine.
  change (" " +:+ spaces k +:+ rest) with (String " " (spaces k +:+ rest)).
  change (" " +:+ rest) with (String " " rest).
  rewrite !(IndexByte_append proto _ " " Hp).
  assert (Hlen : (len proto =? -1) = false).
  { apply Z.eqb_neq. unfold len. lia. }
  rewrite Hlen. cbv zeta.
  by rewrite !sliceTo_append, !sliceOff_append, TrimLeft_spaces.
Qed.

Lemma unsupported_request_no_network_witness :
  let req := {| http.Method := "POST";
                http.URL := {| url.Scheme := "http";
                               url.Host := "example.com";
                               url.Path := "/" |};
                http.Host := "example.com" |} in
  simpleTransport_RoundTrip (exampleLib (sends "")) req
  = ([], Val (None,
       Some (fmt_Errorf
         "request method not supported by simpleTransport (expected GET, got %s)"
         ["POST"]))).
Proof.
  apply (unsupported_request_no_network (exampleLib (sends ""))
           {| http.Method := "POST";
              http.URL := {| url.Scheme := "http";
                             url.Host := "example.com";
                             url.Path := "/" |};
              http.Host := "example.com" |}).
  left. discriminate.
Defined.

Lemma connection_failure_witness :
  let err := otherError "*net.OpError" "connection refused" in
  let req := getRequest "http" "example.com" "/" in
  simpleTransport_RoundTrip (refusingLib err) req
  = ([EvDial "tcp" "example.com:80"],
     Val (None, Some (fmt_Errorf "error connecting to %s: %v"
                        ["example.com:80"; "error"]))).
Proof.
  cbv zeta.
  eapply (proj1 (connection_failure
                   (refusingLib
                      (otherError "*net.OpError" "connection refused"))
                   (getRequest "http" "example.com" "/")
                   eq_refl eq_refl)).
  reflexivity.
Defined.

Lemma empty_connection_witness :
  let req := getRequest "http" "example.com" "/" in
  simpleTransport_RoundTrip (exampleLib (sends "")) req
  = ([EvDial "tcp" "example.com:80"; EvWrite req],
     Val (None, Some io_ErrUnexpectedEOF)).
Proof.
  apply (empty_connection (exampleLib (sends ""))
           (getRequest "http" "example.com" "/") (sends ""));
    reflexivity.
Defined.

Lemma malformed_first_line_witness :
  let req := getRequest "http" "example.com" "/" in
  let L := exampleLib (sends ("garbage" +:+ CRLF)) in
  (strings_IndexByte "garbage" " " = -1 ->
   result (simpleTransport_RoundTrip L req)
   = Val (None, Some (fmt_Errorf "malformed HTTP response: %q"
                        ["garbage"])))
  /\ (forall Proto Status StatusCode major minor,
        parseFirstLine "garbage" = inl (Proto, Status, StatusCode) ->
        http_ParseHTTPVersion L Proto = (major, minor, false) ->
        result (simpleTransport_RoundTrip L req)
        = Val (None, Some (fmt_Errorf "malformed HTTP version: %q"
                             [Proto]))).
Proof.
  apply (malformed_first_line (exampleLib (sends ("garbage" +:+ CRLF)))
           (getRequest "http" "example.com" "/")
           (sends ("garbage" +:+ CRLF)) "garbage" []);
    reflexivity.
Defined.

Lemma header_block_error_witness :
  let conn := sends ("HTTP/1.1 200 OK" +:+ CRLF +:+ "Content-Length: 5") in
  result (simpleTransport_RoundTrip (exampleLib conn)
            (getRequest "http" "example.com" "/"))
  = Val (None, Some io_ErrUnexpectedEOF).
Proof.
  eapply (header_block_error
            (exampleLib
               (sends ("HTTP/1.1 200 OK" +:+ CRLF +:+ "Content-Length: 5")))
            (getRequest "http" "example.com" "/")
            (sends ("HTTP/1.1 200 OK" +:+ CRLF +:+ "Content-Length: 5"))
            "HTTP/1.1 200 OK" (bytes_of_string "Content-Length: 5")
            "HTTP/1.1" "200 OK" 200 1 1 _ io_EOF []);
    [reflexivity | reflexivity | reflexivity | reflexivity | reflexivity
    | reflexivity | reflexivity | vm_compute; reflexivity].
Defined.

Lemma status_code_range_witness :
  let conn := sends ("HTTP/1.1 +12 Odd" +:+ CRLF +:+ CRLF) in
  exists resp,
    result (simpleTransport_RoundTrip (exampleLib conn)
              (getRequest "http" "example.com" "/"))
    = Val (Some resp, None)
    /\ http.StatusCode resp = 12
    /\ 0 <= http.StatusCode resp <= 999.
Proof.
  cbv zeta. eexists. split; [vm_compute; reflexivity |].
  split; [reflexivity |].
  eapply (status_code_range
            (exampleLib (sends ("HTTP/1.1 +12 Odd" +:+ CRLF +:+ CRLF)))
            (getRequest "http" "example.com" "/")).
  vm_compute. reflexivity.
Defined.

Lemma length_headers_removed_witness :
  let conn := sends ("HTTP/1.1 200 OK" +:+ CRLF +:+ "Content-Length: 5"
                     +:+ CRLF +:+ "Trailer: Expires" +:+ CRLF
                     +:+ "Content-Type: text/plain" +:+ CRLF +:+ CRLF
                     +:+ "hello") in
  exists h resp,
    hHeader h !! "Content-Type" = Some ["text/plain"]
    /\ hHeader h !! "Trailer" = Some ["Expires"]
    /\ http.Header' resp !! "Content-Length" = None
    /\ http.Header' resp !! "Trailer" = None
    /\ (forall key, key <> "Content-Length" -> key <> "Trailer" ->
          http.Header' resp !! key = hHeader h !! key)
    /\ (None : error) = None
    /\ http.Request' resp = Some (getRequest "http" "example.com" "/")
    /\ http.TLS resp = None.
Proof.
  cbv zeta. eexists. eexists.
  split; [| split;
    [| eapply (length_headers_removed
                 (exampleLib
                    (sends ("HTTP/1.1 200 OK" +:+ CRLF
                            +:+ "Content-Length: 5"
                            +:+ CRLF +:+ "Trailer: Expires" +:+ CRLF
                            +:+ "Content-Type: text/plain" +:+ CRLF
                            +:+ CRLF +:+ "hello")))
                 (getRequest "http" "example.com" "/"));
       vm_compute; reflexivity]];
    vm_compute; reflexivity.
Defined.

Lemma invalid_Content_Length_witness :
  let conn := sends ("HTTP/1.1 200 OK" +:+ CRLF
                     +:+ "Content-Length: 9223372036854775808"
                     +:+ CRLF +:+ CRLF) in
  result (simpleTransport_RoundTrip (exampleLib conn)
            (getRequest "http" "example.com" "/"))
  = Val (None, Some (fmt_Errorf "invalid Content-Length: %q"
                       ["9223372036854775808"])).
Proof.
  cbv zeta. eapply eq_trans.
  - eapply (invalid_Content_Length
              (exampleLib
                 (sends ("HTTP/1.1 200 OK" +:+ CRLF
                         +:+ "Content-Length: 9223372036854775808"
                         +:+ CRLF +:+ CRLF)))
              (getRequest "http" "example.com" "/")).
    + vm_compute. reflexivity.
    + vm_compute. discriminate.
    + vm_compute. reflexivity.
  - vm_compute. reflexivity.
Defined.

Lemma extra_spaces_ignored_witness :
  parseFirstLine ("HTTP/1.1" +:+ " " +:+ spaces 3 +:+ "404 Not Found")
  = parseFirstLine ("HTTP/1.1" +:+ " " +:+ "404 Not Found").
Proof.
  apply (extra_spaces_ignored "HTTP/1.1" "404 Not Found" 3). reflexivity.
Defined.

(** ** FTPTransport, the GET path *)

(** X17: when the transfer cannot be started, the round trip returns the
    library's error as it is, with no response, after the one call for the
    path made of the URL's host and path. *)
Theorem ftp_start_error (L : FTPLib) (req : http.Request) (err : goerror) :
  http.Method req = "GET" ->
  ftp_GetAsync L (url.Host (http.URL req) +:+ url.Path (http.URL req))
  = inr err ->
  FTPTransport_RoundTrip L req
  = ([EvGetAsync (url.Host (http.URL req) +:+ url.Path (http.URL req))],
     Val (None, Some err)).
Proof.
  intros Hm Hget. unfold FTPTransport_RoundTrip.
  rewrite bool_decide_eq_true_2 by done. simpl negb. cbv iota zeta.
  unfold bind, emit. cbn [fst snd]. by rewrite Hget.
Qed.

(** X18: a transfer that starts gives status 200, protocol 1.1, the read
    end of the pipe as body, and a header set that is empty except for
    Content-Type, present exactly when the path has an extension whose
    MIME type is known. *)
Theorem ftp_get_response (L : FTPLib) (req : http.Request) (r : http.Body) :
  http.Method req = "GET" ->
  ftp_GetAsync L (url.Host (http.URL req) +:+ url.Path (http.URL req))
  = inl r ->
  let ext := path_Ext (url.Path (http.URL req)) in
  let ct := mime_TypeByExtension L ext in
  exists resp,
    FTPTransport_RoundTrip L req
    = ([EvGetAsync (url.Host (http.URL req) +:+ url.Path (http.URL req))],
       Val (Some resp, None))
    /\ http.StatusCode resp = 200
    /\ (http.ProtoMajor resp, http.ProtoMinor resp) = (1, 1)
    /\ http.Body' resp = Some r
    /\ http.Request' resp = Some req
    /\ (forall key, key <> "Content-Type" ->
          http.Header' resp !! key = None)
    /\ http.Header' resp !! "Content-Type"
       = (if bool_decide (ext = "") || bool_decide (ct = "")
          then None else Some [ct]).
Proof.
  intros Hm Hget ext ct. unfold FTPTransport_RoundTrip.
  rewrite bool_decide_eq_true_2 by done. simpl negb. cbv iota zeta.
  unfold bind, emit. cbn [fst snd]. rewrite Hget. fold ext. fold ct.
  eexists. split; [reflexivity |]. cbn [http.StatusCode http.ProtoMajor
    http.ProtoMinor http.Body' http.Request' http.Header'].
  repeat (split; [reflexivity |]). split.
  - intros key Hkey.
    destruct (bool_decide (ext = "")); simpl negb; cbv iota; [done |].
    destruct (bool_decide (ct = "")); simpl negb; cbv iota; [done |].
    unfold Header_Set. by rewrite lookup_insert_ne.
  - destruct (bool_decide (ext = "")); simpl negb; cbv iota; [done |].
    destruct (bool_decide (ct = "")); simpl negb; cbv iota; [done |].
    unfold Header_Set. cbn [orb]. by rewrite lookup_insert_eq.
Qed.

(** X19: the goroutine that watches the transfer closes the pipe at the
    first [COMPLETED] (cleanly) or [ERROR] (with the transfer's error) and
    looks at nothing after it; when the status stream brings neither, or
    no error arrives after [ERROR], it leaves the pipe open. *)
Theorem pipe_closed_at_first_terminal (pre post : list ftp.Status)
    (xferError : option goerror) :
  forallb (fun s => negb (isTerminal s)) pre = true ->
  watchTransfer (pre ++ ftp.COMPLETED :: post) xferError = Closed
  /\ watchTransfer (pre ++ ftp.ERROR :: post) xferError
     = match xferError with
       | Some err => ClosedWithError err
       | None => NotClosed
       end
  /\ watchTransfer pre xferError = NotClosed.
Proof.
  induction pre as [| s pre IH]; intros Hpre; [done |].
  cbn [forallb] in Hpre. apply andb_true_iff in Hpre as [Hs Hpre].
  destruct s as [| | code]; [discriminate | discriminate |].
  cbn [app watchTransfer]. by apply IH.
Qed.

Lemma ftp_start_error_witness :
  let L := {| ftp_GetAsync := fun _ => inr (errorString "no network");
              mime_TypeByExtension := fun _ => "" |} in
  let req := getRequest "ftp" "ftp.example.com" "/pub/file.txt" in
  FTPTransport_RoundTrip L req
  = ([EvGetAsync "ftp.example.com/pub/file.txt"],
     Val (None, Some (errorString "no network"))).
Proof.
  apply (ftp_start_error
           {| ftp_GetAsync := fun _ => inr (errorString "no network");
              mime_TypeByExtension := fun _ => "" |}
           (getRequest "ftp" "ftp.example.com" "/pub/file.txt"));
    reflexivity.
Defined.

Lemma ftp_get_response_witness :
  let pipe := {| http.Reader := io.Source (bytes_of_string "data") io_EOF;
                 http.Closer := sends "" |} in
  let L := {| ftp_GetAsync := fun _ => inl pipe;
              mime_TypeByExtension := fun ext =>
                if bool_decide (ext = ".txt") then "text/plain" else "" |} in
  let req := getRequest "ftp" "ftp.example.com" "/pub/file.txt" in
  exists resp,
    FTPTransport_RoundTrip L req
    = ([EvGetAsync "ftp.example.com/pub/file.txt"], Val (Some resp, None))
    /\ http.StatusCode resp = 200
    /\ (http.ProtoMajor resp, http.ProtoMinor resp) = (1, 1)
    /\ http.Body' resp = Some pipe
    /\ http.Request' resp = Some req
    /\ (forall key, key <> "Content-Type" ->
          http.Header' resp !! key = None)
    /\ http.Header' resp !! "Content-Type" = Some ["text/plain"].
Proof.
  cbv zeta.
  destruct (ftp_get_response
              {| ftp_GetAsync := fun _ =>
                   inl {| http.Reader :=
                            io.Source (bytes_of_string "data") io_EOF;
                          http.Closer := sends "" |};
                 mime_TypeByExtension := fun ext =>
                   if bool_decide (ext = ".txt") then "text/plain" else "" |}
              (getRequest "ftp" "ftp.example.com" "/pub/file.txt")
              {| http.Reader := io.Source (bytes_of_string "data") io_EOF;
                 http.Closer := sends "" |}
              eq_refl eq_refl)
    as (resp & H1 & H2 & H3 & H4 & H5 & H6 & H7).
  exists resp. repeat (split; [assumption |]). exact H7.
Defined.

Lemma pipe_closed_at_first_terminal_witness :
  let err := errorString "550 no such file" in
  watchTransfer [ftp.OTHER 0; ftp.COMPLETED; ftp.ERROR] (Some err) = Closed
  /\ watchTransfer [ftp.OTHER 0; ftp.ERROR; ftp.ERROR] (Some err)
     = ClosedWithError err
  /\ watchTransfer [ftp.OTHER 0] (Some err) = NotClosed.
Proof.
  apply (pipe_closed_at_first_terminal [ftp.OTHER 0] [ftp.ERROR]
           (Some (errorString "550 no such file"))).
  reflexivity.
Defined.

(** ** responseContent, the other paths *)

Section ResponseContentMore.

Variable gzip_NewReader : list byte -> io.Reader + goerror.

(** X20: whenever the response has a body, [responseContent] leaves it
    closed, on every path, the panics included. *)
Theorem body_always_closed res body :
  http.Body' res = Some body ->
  exists body',
    http.Body' (oRes (responseContent gzip_NewReader res)) = Some body'
    /\ http.Closer body' = net.Close (http.Closer body)
    /\ net.closed (http.Closer body') = true.
Proof.
  intros Hbody. unfold responseContent. rewrite Hbody.
  destruct (ReadAll_total (http.Reader body)) as [[[bs err] rd] ->].
  case_bool_decide.
  - destruct err as [e |]; [by eexists |].
    destruct bs as [| b bs]; [by eexists |]. cbn [length Nat.eqb].
    destruct (gzip_NewReader (b :: bs)) as [gz | e]; [| by eexists].
    destruct (ReadAll_total gz) as [[[content e] gzrd] ->]. by eexists.
  - by eexists.
Qed.

(** X21: the error of the last read is dropped.  Without a gzip
    Content-Encoding the bytes the body delivers are returned as they
    are, whatever error ends them, with the headers untouched and no
    decompressor; with it, what the decompressor delivers before failing
    is returned. *)
Theorem final_read_error_ignored res body :
  http.Body' res = Some body ->
  (http.Get (http.Header' res) "Content-Encoding" <> "gzip" ->
   forall content err rd,
     io.ReadAll (http.Reader body) = Some (content, err, rd) ->
     oResult (responseContent gzip_NewReader res) = Val content
     /\ oEvents (responseContent gzip_NewReader res) = []
     /\ http.Header' (oRes (responseContent gzip_NewReader res))
        = http.Header' res)
  /\ (http.Get (http.Header' res) "Content-Encoding" = "gzip" ->
      forall gzContent rd gz partial err gzrd,
        io.ReadAll (http.Reader body) = Some (gzContent, None, rd) ->
        gzContent <> [] ->
        gzip_NewReader gzContent = inl gz ->
        io.ReadAll gz = Some (partial, err, gzrd) ->
        oResult (responseContent gzip_NewReader res) = Val partial).
Proof.
  intros Hbody. unfold responseContent. rewrite Hbody. split.
  - intros Henc content err rd ->.
    by rewrite bool_decide_eq_false_2.
  - intros Henc gzContent rd gz partial err gzrd -> Hne -> ->.
    rewrite bool_decide_eq_true_2 by done.
    by destruct gzContent.
Qed.

(** X22: with a gzip Content-Encoding, an error while reading the
    compressed body, or a non-empty body the decompressor refuses, is a
    panic; in the second case the decompressor has been tried once and
    the headers are as they were. *)
Theorem gzip_failures_panic res body :
  http.Body' res = Some body ->
  http.Get (http.Header' res) "Content-Encoding" = "gzip" ->
  (forall gzContent err rd,
     io.ReadAll (http.Reader body) = Some (gzContent, Some err, rd) ->
     oResult (responseContent gzip_NewReader res)
     = Panic "error reading gzipped content"
     /\ oEvents (responseContent gzip_NewReader res) = [])
  /\ (forall gzContent rd err,
        io.ReadAll (http.Reader body) = Some (gzContent, None, rd) ->
        gzContent <> [] ->
        gzip_NewReader gzContent = inr err ->
        oResult (responseContent gzip_NewReader res)
        = Panic "could not create gzip decoder"
        /\ oEvents (responseContent gzip_NewReader res)
           = [EvGzipNewReader gzContent]
        /\ http.Header' (oRes (responseContent gzip_NewReader res))
           = http.Header' res).
Proof.
  intros Hbody Henc. unfold responseContent. rewrite Hbody.
  rewrite bool_decide_eq_true_2 by done. split.
  - by intros gzContent err rd ->.
  - intros gzContent rd err -> Hne ->. by destruct gzContent.
Qed.

End ResponseContentMore.

(** X23: the response [FTPTransport] gives for a method other than GET
    cannot be given to [responseContent]: it has no body, and
    [responseContent] panics on it. *)
Theorem method_not_allowed_then_content_panics
    (L : FTPLib) (G : list byte -> io.Reader + goerror)
    (req : http.Request) :
  http.Method req <> "GET" ->
  exists resp,
    result (FTPTransport_RoundTrip L req) = Val (Some resp, None)
    /\ oResult (responseContent G resp)
       = Panic "invalid memory address or nil pointer dereference"
    /\ oRes (responseContent G resp) = resp.
Proof.
  intros Hm. unfold FTPTransport_RoundTrip.
  rewrite bool_decide_eq_false_2 by done. simpl negb. cbv iota.
  eexists. split; [reflexivity |]. split; reflexivity.
Qed.

(** X24: fetching with [simpleTransport] and then reading with
    [responseContent], for a response that declares a content length [n]
    and no gzip encoding: the content is the first [n] bytes after the
    header block, and the dialed connection ends up closed. *)
Theorem fetch_then_read (L : NetLib) (G : list byte -> io.Reader + goerror)
    (req : http.Request) (h : Head) (n : Z) :
  result (readHead L req) = Val (inl h) ->
  strconv_ParseInt (http.Get (hHeader h) "Content-Length") 64 = inl n ->
  http.Get (hHeader h) "Content-Encoding" <> "gzip" ->
  exists resp body',
    result (simpleTransport_RoundTrip L req) = Val (Some resp, None)
    /\ oResult (responseContent G resp) = Val (take (Z.to_nat n) (hRest h))
    /\ oEvents (responseContent G resp) = []
    /\ http.Body' (oRes (responseContent G resp)) = Some body'
    /\ http.Closer body' = net.Close (hConn h).
Proof.
  intros Hh Hparse Henc.
  rewrite (RoundTrip_finish L req h Hh). unfold finish. cbv zeta.
  rewrite bool_decide_eq_false_2 by (by eapply ParseInt_nonempty).
  simpl negb. cbv iota. rewrite Hparse.
  destruct (ReadAll_limited (hRest h) (net.final (hConn h)) n) as [r' Hr'].
  eexists. eexists. split; [reflexivity |].
  unfold responseContent. cbn [http.Body' http.Header' http.Reader].
  assert (Hget : http.Get
            (http.Del (http.Del (hHeader h) "Content-Length") "Trailer")
            "Content-Encoding"
          = http.Get (hHeader h) "Content-Encoding").
  { unfold http.Get, http.Del. by rewrite !lookup_delete_ne. }
  rewrite Hget, bool_decide_eq_false_2 by done. rewrite Hr'.
  cbn. repeat split.
Qed.

Lemma body_always_closed_witness :
  exists body',
    http.Body' (oRes (responseContent gunzipNothing (gzipResponse helloGz)))
    = Some body'
    /\ http.Closer body' = net.Close (sends "")
    /\ net.closed (http.Closer body') = true.
Proof.
  apply (body_always_closed gunzipNothing (gzipResponse helloGz)
           {| http.Reader := io.Source helloGz io_EOF;
              http.Closer := sends "" |}).
  reflexivity.
Defined.

Lemma final_read_error_ignored_witness :
  let plain := setBody (tlsResponse [])
                 (Some (brokenBody (bytes_of_string "partial page"))) in
  let zipped := gzipResponse helloGz in
  (oResult (responseContent gunzipNothing plain)
   = Val (bytes_of_string "partial page")
   /\ oEvents (responseContent gunzipNothing plain) = []
   /\ http.Header' (oRes (responseContent gunzipNothing plain))
      = http.Header' plain)
  /\ oResult (responseContent (gunzipTruncated (bytes_of_string "hel"))
                zipped)
     = Val (bytes_of_string "hel").
Proof.
  cbv zeta. split.
  - eapply (proj1 (final_read_error_ignored gunzipNothing
                     (setBody (tlsResponse [])
                        (Some (brokenBody (bytes_of_string "partial page"))))
                     (brokenBody (bytes_of_string "partial page"))
                     eq_refl)).
    + vm_compute. discriminate.
    + vm_compute. reflexivity.
  - eapply (proj2 (final_read_error_ignored
                     (gunzipTruncated (bytes_of_string "hel"))
                     (gzipResponse helloGz)
                     {| http.Reader := io.Source helloGz io_EOF;
                        http.Closer := sends "" |}
                     eq_refl)).
    + vm_compute. reflexivity.
    + vm_compute. reflexivity.
    + discriminate.
    + reflexivity.
    + vm_compute. reflexivity.
Defined.

Lemma gzip_failures_panic_witness :
  let broken := setBody (gzipResponse [])
                  (Some (brokenBody [31; 139])) in
  (oResult (responseContent gunzipNothing broken)
   = Panic "error reading gzipped content"
   /\ oEvents (responseContent gunzipNothing broken) = [])
  /\ (oResult (responseContent gunzipNothing (gzipResponse [1; 2; 3]))
      = Panic "could not create gzip decoder"
      /\ oEvents (responseContent gunzipNothing (gzipResponse [1; 2; 3]))
         = [EvGzipNewReader [1; 2; 3]]
      /\ http.Header'
           (oRes (responseContent gunzipNothing (gzipResponse [1; 2; 3])))
         = http.Header' (gzipResponse [1; 2; 3])).
Proof.
  cbv zeta. split.
  - eapply (proj1 (gzip_failures_panic gunzipNothing
                     (setBody (gzipResponse []) (Some (brokenBody [31; 139])))
                     (brokenBody [31; 139]) eq_refl _)).
    vm_compute. reflexivity.
  - eapply (proj2 (gzip_failures_panic gunzipNothing
                     (gzipResponse [1; 2; 3])
                     {| http.Reader := io.Source [1; 2; 3] io_EOF;
                        http.Closer := sends "" |} eq_refl _)).
    + vm_compute. reflexivity.
    + discriminate.
    + reflexivity.
  Unshelve. all: vm_compute; reflexivity.
Defined.

Lemma method_not_allowed_then_content_panics_witness :
  let L := {| ftp_GetAsync := fun _ => inr (errorString "no network");
              mime_TypeByExtension := fun _ => "" |} in
  let req := {| http.Method := "DELETE";
                http.URL := {| url.Scheme := "ftp";
                               url.Host := "ftp.example.com";
                               url.Path := "/pub/file.txt" |};
                http.Host := "ftp.example.com" |} in
  exists resp,
    result (FTPTransport_RoundTrip L req) = Val (Some resp, None)
    /\ oResult (responseContent gunzipNothing resp)
       = Panic "invalid memory address or nil pointer dereference"
    /\ oRes (responseContent gunzipNothing resp) = resp.
Proof.
  apply (method_not_allowed_then_content_panics
           {| ftp_GetAsync := fun _ => inr (errorString "no network");
              mime_TypeByExtension := fun _ => "" |}
           gunzipNothing
           {| http.Method := "DELETE";
              http.URL := {| url.Scheme := "ftp";
                             url.Host := "ftp.example.com";
                             url.Path := "/pub/file.txt" |};
              http.Host := "ftp.example.com" |}).
  discriminate.
Defined.

Lemma fetch_then_read_witness :
  let conn := sends ("HTTP/1.1 200 OK" +:+ CRLF +:+ "Content-Length: 5"
                     +:+ CRLF +:+ CRLF +:+ "hello world") in
  exists h resp body',
    hRest h = bytes_of_string "hello world"
    /\ hConn h = conn
    /\ result (simpleTransport_RoundTrip (exampleLib conn)
                 (getRequest "http" "example.com" "/"))
       = Val (Some resp, None)
    /\ oResult (responseContent gunzipNothing resp)
       = Val (take (Z.to_nat 5) (hRest h))
    /\ oEvents (responseContent gunzipNothing resp) = []
    /\ http.Body' (oRes (responseContent gunzipNothing resp)) = Some body'
    /\ http.Closer body' = net.Close (hConn h).
Proof.
  cbv zeta.
  pose (h := {| hConn := sends ("HTTP/1.1 200 OK" +:+ CRLF
                                +:+ "Content-Length: 5"
                                +:+ CRLF +:+ CRLF +:+ "hello world");
                hProto := "HTTP/1.1"; hStatus := "200 OK";
                hStatusCode := 200; hProtoMajor := 1; hProtoMinor := 1;
                hHeader := {["Content-Length" := ["5"]]};
                hRest := bytes_of_string "hello world" |}).
  destruct (fetch_then_read
              (exampleLib
                 (sends ("HTTP/1.1 200 OK" +:+ CRLF +:+ "Content-Length: 5"
                         +:+ CRLF +:+ CRLF +:+ "hello world")))
              gunzipNothing
              (getRequest "http" "example.com" "/") h 5)
    as (resp & body' & H1 & H2 & H3 & H4 & H5).
  - vm_compute. reflexivity.
  - vm_compute. reflexivity.
  - vm_compute. discriminate.
  - exists h, resp, body'.
    split; [reflexivity |]. split; [reflexivity |].
    repeat (split; [assumption |]). assumption.
Defined.

(** ** scanContent, the whole function *)

Lemma wordRune_alnum_range (c : Z) : 0 <= wordRune_alnum c < 2 ^ 31.
Proof.
  unfold wordRune_alnum, space.
  repeat match goal with
         | |- context [if ?b then _ else _] => destruct b eqn:?
         end; lia.
Qed.

Lemma EncodeRune_length (c : Z) :
  (1 <= length (utf8_EncodeRune c) <= 4)%nat.
Proof.
  unfold utf8_EncodeRune. cbv zeta.
  repeat match goal with
         | |- context [if ?b then _ else _] => destruct b
         end; cbn [length]; lia.
Qed.

(** The loop ends within [length content] iterations for a decoder that
    makes progress, and gives the scanner at most four bytes for each byte
    of the document. *)
Lemma scanLoop_length (wordRune : Z -> Z) (d : mahonia.Decoder)
    (Hprogress : progresses d) (fuel : nat) :
  forall ds content prevRune fed,
    (length content <= fuel)%nat ->
    exists more,
      scanLoop record wordRune d fuel ds content prevRune fed
        = Some (Val (fed ++ more))
      /\ (length more <= 4 * length content)%nat.
Proof.
  induction fuel as [| fuel IH]; intros ds content prevRune fed Hlen.
  - destruct content; [| cbn in Hlen; lia].
    exists []. rewrite app_nil_r. split; [done | cbn; lia].
  - destruct content as [| b rest].
    { exists []. rewrite app_nil_r. split; [done | cbn; lia]. }
    set (content := b :: rest) in *.
    cbn [scanLoop]. fold content.
    pose proof (Hprogress ds content) as Hp.
    destruct (mahonia.step d ds content) as [[[c size] status] ds'].
    destruct Hp as [Hsize Hmin]; [done |].
    destruct (Z.ltb_spec size 0); [lia |].
    destruct (Z.ltb_spec (Z.of_nat (length content)) size); [lia |].
    cbn [orb].
    assert (Hrest : status <> mahonia.NO_ROOM ->
             (length (drop (Z.to_nat size) content) <= fuel)%nat
             /\ (length (drop (Z.to_nat size) content) + 1
                 <= length content)%nat).
    { intros Hs. specialize (Hmin Hs). rewrite length_drop.
      subst content. cbn [length] in *. lia. }
    assert (Hkeep : status <> mahonia.NO_ROOM ->
      exists more,
        (let c := wordRune c in
         if (c =? space) && (prevRune =? space)
         then scanLoop record wordRune d fuel ds'
                (drop (Z.to_nat size) content) prevRune fed
         else
           if c <? 128
           then scanLoop record wordRune d fuel ds'
                  (drop (Z.to_nat size) content) c
                  (record fed (byte_of_rune c))
           else scanLoop record wordRune d fuel ds'
                  (drop (Z.to_nat size) content) c
                  (fold_left record (utf8_EncodeRune c) fed))
        = Some (Val (fed ++ more))
        /\ (length more <= 4 * length content)%nat).
    { intros Hs. destruct (Hrest Hs) as [Hfuel Hless]. cbv zeta.
      destruct ((wordRune c =? space) && (prevRune =? space)).
      - destruct (IH ds' (drop (Z.to_nat size) content) prevRune fed Hfuel)
          as (more & Hrun & Hm).
        exists more. split; [done | lia].
      - destruct (wordRune c <? 128).
        + destruct (IH ds' (drop (Z.to_nat size) content) (wordRune c)
                      (record fed (byte_of_rune (wordRune c))) Hfuel)
            as (more & Hrun & Hm).
          exists ([byte_of_rune (wordRune c)] ++ more).
          unfold record in *. rewrite app_assoc.
          split; [done | cbn [length app]; lia].
        + destruct (IH ds' (drop (Z.to_nat size) content) (wordRune c)
                      (fold_left record (utf8_EncodeRune (wordRune c)) fed)
                      Hfuel)
            as (more & Hrun & Hm).
          exists (utf8_EncodeRune (wordRune c) ++ more).
          rewrite fold_left_record in Hrun |- *. rewrite app_assoc.
          split; [done |]. rewrite length_app.
          pose proof (EncodeRune_length (wordRune c)). lia. }
    destruct status.
    + by apply Hkeep.
    + by apply Hkeep.
    + exists []. rewrite app_nil_r. split; [done | cbn [length]; lia].
    + destruct Hrest as [Hfuel Hless]; [done |].
      destruct (IH ds' (drop (Z.to_nat size) content) prevRune fed Hfuel)
        as (more & Hrun & Hm).
      exists more. split; [done | lia].
Qed.

(** X25: for every document, with a decoder that makes progress and a
    [wordRune] that returns valid runes, the stream given to the phrase
    scanner begins with a separator, has no two separators next to each
    other up to the closing separator, and ends with the closing
    separator, which is added whatever precedes it. *)
Theorem normalized_stream_shape (wordRune : Z -> Z) (d : mahonia.Decoder)
    (content : list byte) :
  progresses d ->
  (forall c, 0 <= wordRune c < 2 ^ 31) ->
  exists body,
    fedBytes wordRune d (length content) content
      = Some (Val (space :: body ++ [space]))
    /\ collapsed (space :: body) = true.
Proof.
  intros Hprogress HwordRune. unfold fedBytes, scanBytes.
  destruct (scanLoop_collapses wordRune d Hprogress HwordRune
              (length content) (mahonia.start d) content
              space (record [] space))
    as (more & prev' & Hrun & Hinv & _); [done | by split |].
  rewrite Hrun. exists more. split; [reflexivity | exact Hinv].
Qed.

(** X26: the stream given to the phrase scanner has at least the two
    bracketing separators and at most four bytes for each byte of the
    document besides them. *)
Theorem fed_length_bound (wordRune : Z -> Z) (d : mahonia.Decoder)
    (content : list byte) :
  progresses d ->
  exists fed,
    fedBytes wordRune d (length content) content = Some (Val fed)
    /\ (2 <= length fed <= 2 + 4 * length content)%nat.
Proof.
  intros Hprogress. unfold fedBytes, scanBytes.
  destruct (scanLoop_length wordRune d Hprogress (length content)
              (mahonia.start d) content space (record [] space))
    as (more & Hrun & Hm); [done |].
  rewrite Hrun. eexists. split; [reflexivity |].
  unfold record. rewrite !length_app. cbn [length]. lia.
Qed.

(** The tally after the loop, key by key. *)
Lemma tallyLoop_lookup (entries : list (string * Z)) :
  forall (t : gmap string Z) (k : string),
    NoDup entries.*1 ->
    tallyLoop entries t !! k
    = match (list_to_map entries : gmap string Z) !! k with
      | Some n => Some (default 0 (t !! k) + n)
      | None => t !! k
      end.
Proof.
  induction entries as [| [r n] entries IH]; intros t k Hnd; [done |].
  apply NoDup_cons in Hnd as [Hr Hnd].
  unfold tallyLoop in *. cbn [fold_left fst snd].
  rewrite IH by done. cbn [list_to_map foldr].
  destruct (decide (k = r)) as [-> | Hk].
  - rewrite lookup_insert_eq.
    rewrite (not_elem_of_list_to_map_1 entries r Hr).
    by rewrite lookup_insert_eq.
  - rewrite !lookup_insert_ne by done. reflexivity.
Qed.

(** X27: merging the scanner's tally adds each of its counts to the
    document's count for the same rule (starting from zero when the rule
    is new) and leaves every other count as it was, whatever the order in
    which the loop meets the entries of the scanner's map. *)
Theorem tally_merge_any_order (entries : list (string * Z))
    (from into : gmap string Z) :
  entries ≡ₚ map_to_list from ->
  tallyLoop entries into = mergeTally into from
  /\ (forall k n, from !! k = Some n ->
        tallyLoop entries into !! k = Some (default 0 (into !! k) + n))
  /\ (forall k, from !! k = None ->
        tallyLoop entries into !! k = into !! k).
Proof.
  intros Hperm.
  assert (Hnd : NoDup entries.*1).
  { rewrite Hperm. apply NoDup_fst_map_to_list. }
  assert (Hmap : (list_to_map entries : gmap string Z) = from).
  { rewrite (list_to_map_proper entries (map_to_list from) Hnd Hperm).
    apply list_to_map_to_list. }
  assert (Hlook : forall k,
            tallyLoop entries into !! k
            = match from !! k with
              | Some n => Some (default 0 (into !! k) + n)
              | None => into !! k
              end).
  { intros k. rewrite tallyLoop_lookup by done. by rewrite Hmap. }
  split; [| split].
  - apply map_eq. intros k. rewrite Hlook. unfold mergeTally.
    rewrite lookup_union_with.
    destruct (into !! k), (from !! k); reflexivity.
  - intros k n Hk. by rewrite Hlook, Hk.
  - intros k Hk. by rewrite Hlook, Hk.
Qed.

(** X28: [scanContent] with a decoder that makes progress (the one of the
    document's charset, found first if the charset is not set, or the
    UTF-8 one when that charset is unknown, behind the entity decoder for
    HTML) returns within [length content] iterations and does not panic;
    the phrase scanner has been given exactly the normalized stream, its
    tally is merged into the document's, and the scores are computed
    last. *)
Theorem scanContent_returns (L : ScanLib) (c : context)
    (d : mahonia.Decoder) :
  let c' := if bool_decide (charset c = "")
            then setCharset c (findCharset L c) else c in
  match mahonia_NewDecoder L (charset c') with
  | Some d0 => Some d0
  | None => mahonia_NewDecoder L "utf-8"
  end = Some d ->
  let dec := if strings_Contains (contentType L c') "html"
             then mahonia_FallbackDecoder L (mahonia_EntityDecoder L)
                    (Some d)
             else d in
  progresses dec ->
  exists fed,
    fedBytes (wordRune L) dec (length (content c)) (content c)
    = Some (Val fed)
    /\ scanContent L (length (content c)) c
       = Some (Val (calculateScores L
                      (setTally c'
                         (mergeTally (tally c)
                            (ps_tally L
                               (fold_left (scanByte L) fed
                                  (newPhraseScanner L))))))).
Proof.
  intros c' Hsel dec Hprogress.
  assert (Hc : content c' = content c /\ tally c' = tally c).
  { subst c'. by case_bool_decide. }
  destruct Hc as [Hcontent Htally].
  assert (Hfed : exists fed,
            fedBytes (wordRune L) dec (length (content c)) (content c)
            = Some (Val fed)).
  { unfold fedBytes, scanBytes.
    destruct (scanLoop_length (wordRune L) dec Hprogress
                (length (content c)) (mahonia.start dec) (content c)
                space (record [] space))
      as (more & Hrun & _); [done |].
    rewrite Hrun. by eexists. }
  destruct Hfed as [fed Hfed]. exists fed. split; [exact Hfed |].
  unfold scanContent. cbv zeta. fold c'.
  assert (Hdec :
    (if strings_Contains (contentType L c') "html"
     then Some (mahonia_FallbackDecoder L (mahonia_EntityDecoder L)
                  match mahonia_NewDecoder L (charset c') with
                  | Some d0 => Some d0
                  | None => mahonia_NewDecoder L "utf-8"
                  end)
     else match mahonia_NewDecoder L (charset c') with
          | Some d0 => Some d0
          | None => mahonia_NewDecoder L "utf-8"
          end) = Some dec).
  { rewrite Hsel. subst dec.
    by destruct (strings_Contains (contentType L c') "html"). }
  rewrite Hdec, Hcontent, Htally.
  rewrite scanBytes_recorded, Hfed. reflexivity.
Qed.

Lemma normalized_stream_shape_witness :
  exists body,
    fedBytes wordRune_alnum decodeASCII 14 (bytes_of_string "Hello,  World!")
      = Some (Val (space :: body ++ [space]))
    /\ collapsed (space :: body) = true.
Proof.
  apply (normalized_stream_shape wordRune_alnum decodeASCII
           (bytes_of_string "Hello,  World!")).
  - exact decodeASCII_progresses.
  - exact wordRune_alnum_range.
Defined.

Lemma fed_length_bound_witness :
  exists fed,
    fedBytes wordRune_alnum decodeASCII 14 (bytes_of_string "Hello,  World!")
      = Some (Val fed)
    /\ (2 <= length fed <= 2 + 4 * 14)%nat.
Proof.
  apply (fed_length_bound wordRune_alnum decodeASCII
           (bytes_of_string "Hello,  World!")).
  exact decodeASCII_progresses.
Defined.

Lemma tally_merge_any_order_witness :
  let from : gmap string Z := {["buy now" := 2]} in
  let into : gmap string Z := {["buy now" := 1; "free" := 4]} in
  tallyLoop [("buy now", 2)] into = mergeTally into from
  /\ (forall k n, from !! k = Some n ->
        tallyLoop [("buy now", 2)] into !! k
        = Some (default 0 (into !! k) + n))
  /\ (forall k, from !! k = None ->
        tallyLoop [("buy now", 2)] into !! k = into !! k).
Proof.
  apply (tally_merge_any_order [("buy now", 2)] {["buy now" := 2]}
           {["buy now" := 1; "free" := 4]}).
  by rewrite map_to_list_singleton.
Defined.

Lemma scanContent_returns_witness :
  let c := {| charset := ""; content := bytes_of_string "Hello,  World!";
              tally := {["separators" := 10]} |} in
  exists fed,
    fedBytes wordRune_alnum decodeASCII 14 (content c) = Some (Val fed)
    /\ scanContent exampleScanLib 14 c
       = Some (Val (setTally (setCharset c "US-ASCII")
                      (mergeTally (tally c)
                         (ps_tally exampleScanLib
                            (fold_left record fed []))))).
Proof.
  apply (scanContent_returns exampleScanLib
           {| charset := ""; content := bytes_of_string "Hello,  World!";
              tally := {["separators" := 10]} |}
           decodeASCII).
  - reflexivity.
  - exact decodeASCII_progresses.
Defined.
